(** * SEO audit tool: crawler, rule engine, summary and audit store

    A shallow embedding of [backend/seo_analyzer.py], [backend/crawler.py],
    [backend/main.py] and [backend/database.py].

    Conventions of the embedding:
    - Python [int] is [Z], [str] is [string] (one [ascii] per character,
      for text below U+0100), [bytes] is [string] too,
      a [float] that holds a decimal with two places is the rational it
      prints as ([Q]);
    - a dictionary with a fixed set of keys is a record whose fields carry
      the keys' names; a key that may be absent and is read with
      [.get(key, default)] is an [option] field; the audit store, keyed by
      audit id, is a [gmap]; the navigation link set is a [gset];
    - code that can raise returns a [result]; [try/except Exception] is a
      match on it;
    - the libraries the code calls (the lxml parser behind BeautifulSoup,
      [urllib.parse], [httpx]) are interfaces (type classes): the theorems
      hold for every implementation of them. *)

From Stdlib Require Import ZArith QArith String Ascii DecimalString.
From stdpp Require Import base gmap sets list strings.

Local Open Scope Z_scope.
Set Warnings "-register-all,-clear-no-such-hyp".

(** ** Exceptions *)

Inductive result (A : Type) : Type :=
| Ok (a : A)
| Raise (e : string).
Arguments Ok {A} a.
Arguments Raise {A} e.

Global Instance result_ret : MRet result := λ A a, Ok a.

Global Instance result_bind : MBind result := λ A B k m,
  match m with
  | Ok a => k a
  | Raise e => Raise e
  end.

(** [for x in xs: body] over an accumulator, stopping at the first raise. *)
Fixpoint for_each {A S} (xs : list A) (body : A → S → result S) (acc : S)
  : result S :=
  match xs with
  | [] => Ok acc
  | x :: xs' => acc' ← body x acc; for_each xs' body acc'
  end.

(** ** Python built-ins used by the code *)

Module Py.

(** [str.isspace] below U+0100: TAB..CR, FS..US, the space, NEL and the
    no-break space. *)
Definition isspace (c : ascii) : bool :=
  let n := nat_of_ascii c in
  ((9 <=? n) && (n <=? 13) || (28 <=? n) && (n <=? 32)
   || (n =? 133) || (n =? 160))%nat.

(** [str.lower] below U+0100: A..Z and the accented capitals, the
    multiplication sign (215) left alone. *)
Definition lower_char (c : ascii) : ascii :=
  let n := nat_of_ascii c in
  if ((65 <=? n) && (n <=? 90)
      || (192 <=? n) && (n <=? 222) && negb (n =? 215))%nat
  then ascii_of_nat (n + 32) else c.

(** [s.lower()] *)
Fixpoint lower (s : string) : string :=
  match s with
  | EmptyString => EmptyString
  | String c s' => String (lower_char c) (lower s')
  end.

Fixpoint lstrip (s : string) : string :=
  match s with
  | EmptyString => EmptyString
  | String c s' => if isspace c then lstrip s' else s
  end.

(** [s.rstrip()]: a character is dropped when everything from it to the
    end is white space. *)
Fixpoint rstrip (s : string) : string :=
  match s with
  | EmptyString => EmptyString
  | String c s' =>
      match rstrip s' with
      | EmptyString => if isspace c then EmptyString else String c EmptyString
      | r => String c r
      end
  end.

(** [s.strip()] *)
Definition strip (s : string) : string := rstrip (lstrip s).

(** [sub in s] on strings. *)
Fixpoint contains (sub s : string) : bool :=
  String.prefix sub s ||
  match s with
  | EmptyString => false
  | String _ s' => contains sub s'
  end.

(** [s.split(sep)[0]] for a one-character separator. *)
Fixpoint split_first (sep : ascii) (s : string) : string :=
  match s with
  | EmptyString => EmptyString
  | String c s' =>
      if Ascii.eqb c sep then EmptyString else String c (split_first sep s')
  end.

(** [sep.join(parts)] *)
Fixpoint join (sep : string) (parts : list string) : string :=
  match parts with
  | [] => ""
  | [p] => p
  | p :: ps => p +:+ sep +:+ join sep ps
  end.

(** The tokens of [re.findall(r"\S+", s)]. *)
Fixpoint tokens_go (cur : string) (s : string) : list string :=
  match s with
  | EmptyString => if String.eqb cur "" then [] else [String.rev cur]
  | String c s' =>
      if isspace c
      then (if String.eqb cur "" then [] else [String.rev cur]) ++ tokens_go "" s'
      else tokens_go (String c cur) s'
  end.
Definition tokens (s : string) : list string := tokens_go "" s.

(** Truth value of a [str]. *)
Definition truthy (s : string) : bool := negb (String.eqb s "").

(** [len(s)] *)
Definition len (s : string) : Z := Z.of_nat (String.length s).

(** [f"{n}"] for an [int]. *)
Definition format_int (n : Z) : string := NilZero.string_of_int (Z.to_int n).

(** [round(q, 2)]: to the nearest hundredth, ties to the even one. *)
Definition round2 (q : Q) : Q :=
  let x := Qnum q * 100 in
  let d := Z.pos (Qden q) in
  let fl := x / d in
  let r2 := 2 * (x mod d) in
  let h :=
    if r2 <? d then fl
    else if d <? r2 then fl + 1
    else if Z.even fl then fl else fl + 1 in
  Qmake h 100.

End Py.

(** ** The document tree BeautifulSoup builds *)

Module Bs4.

(** A [Tag] with its name, its attribute dictionary (raw attribute text)
    and its children; a text node; and the string nodes [get_text] skips
    (comments and the like). The [BeautifulSoup] object is the root
    [Tag] named [[document]]. *)
Inductive node : Type :=
| Tag (name : string) (attrs : gmap string string) (contents : list node)
| NavigableString (s : string)
| Comment (s : string).

Definition name_of (n : node) : option string :=
  match n with Tag nm _ _ => Some nm | _ => None end.

Definition attrs_of (n : node) : gmap string string :=
  match n with Tag _ a _ => a | _ => ∅ end.

(** [tag.get(key)] *)
Definition get (n : node) (key : string) : option string := attrs_of n !! key.

(** [tag.descendants]: the nodes below [n], in document order. *)
Fixpoint descendants (n : node) : list node :=
  match n with
  | Tag _ _ cs =>
      (fix go (l : list node) : list node :=
         match l with
         | [] => []
         | c :: r => c :: descendants c ++ go r
         end) cs
  | _ => []
  end.

Definition is_tag (n : node) : bool :=
  match n with Tag _ _ _ => true | _ => false end.

(** [tag.find_all(...)] with the name and attribute tests folded into one
    predicate on tags. *)
Definition find_all (n : node) (p : node → bool) : list node :=
  List.filter (λ d, is_tag d && p d) (descendants n).

(** [tag.find(...)]: the first match, or [None]. *)
Definition find (n : node) (p : node → bool) : option node :=
  head (find_all n p).

(** Name test: [find_all('nav')]. *)
Definition named (nm : string) (n : node) : bool :=
  match name_of n with Some x => String.eqb x nm | None => false end.

(** Name test against a list: [find_all(['div', 'ul'], ...)]. *)
Definition named_in (nms : list string) (n : node) : bool :=
  existsb (λ nm, named nm n) nms.

(** [attrs={key: value}] for a single-valued attribute. *)
Definition attr_is (key value : string) (n : node) : bool :=
  match get n key with Some v => String.eqb v value | None => false end.

(** [key=True]: the attribute is there. *)
Definition has_attr (key : string) (n : node) : bool :=
  match get n key with Some _ => true | None => false end.

(** A multi-valued attribute ([class], [rel]) is held as the list of its
    white-space separated values; a test matches when one of the values
    or their [' '.join] passes it. A function test also sees the missing
    attribute, as [None]. *)
Definition multi_attr_fn (key : string) (f : option string → bool)
    (n : node) : bool :=
  match get n key with
  | None => f None
  | Some raw =>
      let values := Py.tokens raw in
      existsb (λ v, f (Some v)) values || f (Some (Py.join " " values))
  end.

Definition multi_attr_is (key value : string) (n : node) : bool :=
  match get n key with
  | None => false
  | Some raw =>
      let values := Py.tokens raw in
      existsb (λ v, String.eqb v value) values
      || String.eqb (Py.join " " values) value
  end.

(** The text nodes below [n], in document order. *)
Definition strings (n : node) : list string :=
  omap (λ d, match d with NavigableString s => Some s | _ => None end)
       (descendants n).

(** [tag.get_text(strip=True)] *)
Definition get_text_strip (n : node) : string :=
  Py.join "" (List.filter Py.truthy (Py.strip <$> strings n)).

End Bs4.

(** ** External libraries *)

(** [BeautifulSoup(html, 'lxml')] *)
Class HtmlParser := { BeautifulSoup : string → Bs4.node }.

(** The two components of [urlparse]'s result that the code reads. *)
Record ParseResult := { scheme : string; netloc : string }.

(** [urllib.parse]; both functions raise [ValueError] on some inputs. *)
Class UrlLib := {
  urlparse : string → result ParseResult;
  urljoin : string → string → result string
}.

(** ** Page records and analyses *)

(** The dictionary [_crawl_page] builds and [analyze_page] reads. The
    analyzer reads every key with [.get(key, default)], so a caller may
    leave keys out. *)
Module PageData.
Record t := {
  url : option string;
  status_code : option Z;
  html : option string;
  headers : option (gmap string string);
  page_size_kb : option Q;
  internal_links : option Z;
  error : option string
}.
End PageData.

(** The dictionary [analyze_page] returns. The keys [title],
    [meta_description], [h1_tags] and [canonical_url] are set together, on
    the full path only: they form the optional [extracted] part. *)
Module PageAnalysis.
Record extracted_t := {
  title : string;
  meta_description : string;
  h1_tags : list string;
  canonical_url : option string
}.

Record t := {
  url : string;
  status_code : Z;
  title_length : Z;
  meta_description_length : Z;
  h1_count : Z;
  canonical_present : bool;
  noindex : bool;
  page_size_kb : Q;
  internal_links : Z;
  issues : list string;
  extracted : option extracted_t
}.
End PageAnalysis.

(** ** [seo_analyzer.py]: the rule engine *)

Module SEOAnalyzer.

Definition MIN_TITLE_LENGTH : Z := 30.
Definition MAX_TITLE_LENGTH : Z := 60.
Definition MIN_META_DESC_LENGTH : Z := 120.
Definition MAX_META_DESC_LENGTH : Z := 160.

Definition _extract_title (soup : Bs4.node) : string :=
  let title_tag := Bs4.find soup (Bs4.named "title") in
  match title_tag with
  | Some title_tag => Bs4.get_text_strip title_tag
  | None => ""
  end.

Definition _extract_meta_description (soup : Bs4.node) : string :=
  let meta_desc :=
    Bs4.find soup (λ t, Bs4.named "meta" t && Bs4.attr_is "name" "description" t) in
  let meta_desc :=
    match meta_desc with
    | None =>
        Bs4.find soup
          (λ t, Bs4.named "meta" t && Bs4.attr_is "property" "og:description" t)
    | Some _ => meta_desc
    end in
  match meta_desc with
  | Some meta_desc => Py.strip (default "" (Bs4.get meta_desc "content"))
  | None => ""
  end.

Definition _check_noindex (soup : Bs4.node) : bool :=
  let robots_meta :=
    Bs4.find soup (λ t, Bs4.named "meta" t && Bs4.attr_is "name" "robots" t) in
  match robots_meta with
  | Some robots_meta =>
      let content := Py.lower (default "" (Bs4.get robots_meta "content")) in
      if Py.contains "noindex" content then true else false
  | None => false
  end.

Definition _detect_issues (title_length meta_desc_length h1_count : Z)
    (canonical_present noindex : bool) (status_code : Z) : list string :=
  let issues : list string := [] in
  (* Title checks *)
  let issues :=
    if title_length =? 0 then issues ++ ["MISSING_TITLE"]
    else if title_length <? MIN_TITLE_LENGTH then issues ++ ["TITLE_TOO_SHORT"]
    else if title_length >? MAX_TITLE_LENGTH then issues ++ ["TITLE_TOO_LONG"]
    else issues in
  (* Meta description checks *)
  let issues :=
    if meta_desc_length =? 0 then issues ++ ["MISSING_META_DESCRIPTION"]
    else if meta_desc_length <? MIN_META_DESC_LENGTH
         then issues ++ ["META_DESCRIPTION_TOO_SHORT"]
    else if meta_desc_length >? MAX_META_DESC_LENGTH
         then issues ++ ["META_DESCRIPTION_TOO_LONG"]
    else issues in
  (* H1 checks *)
  let issues :=
    if h1_count =? 0 then issues ++ ["MISSING_H1"]
    else if h1_count >? 1 then issues ++ ["MULTIPLE_H1_TAGS"]
    else issues in
  (* Canonical check *)
  let issues :=
    if negb canonical_present then issues ++ ["MISSING_CANONICAL"] else issues in
  (* Noindex check *)
  let issues := if noindex then issues ++ ["NOINDEX_PRESENT"] else issues in
  (* Status code check *)
  let issues :=
    if negb (status_code =? 200)
    then issues ++ ["HTTP_" +:+ Py.format_int status_code]
    else issues in
  issues.

Definition analyze_page {P : HtmlParser} (page_data : PageData.t) : PageAnalysis.t :=
  let url := default "" (PageData.url page_data) in
  let status_code := default 0 (PageData.status_code page_data) in
  let html := default "" (PageData.html page_data) in
  if negb (Py.truthy html) || negb (status_code =? 200) then
    {| PageAnalysis.url := url;
       PageAnalysis.status_code := status_code;
       PageAnalysis.title_length := 0;
       PageAnalysis.meta_description_length := 0;
       PageAnalysis.h1_count := 0;
       PageAnalysis.canonical_present := false;
       PageAnalysis.noindex := false;
       PageAnalysis.page_size_kb := default 0%Q (PageData.page_size_kb page_data);
       PageAnalysis.internal_links := default 0 (PageData.internal_links page_data);
       PageAnalysis.issues :=
         if negb (status_code =? 200) then ["PAGE_NOT_ACCESSIBLE"]
         else ["NO_HTML_CONTENT"];
       PageAnalysis.extracted := None |}
  else
    let soup := BeautifulSoup html in
    (* Extract SEO elements *)
    let title := _extract_title soup in
    let meta_description := _extract_meta_description soup in
    let h1_tags := Bs4.find_all soup (Bs4.named "h1") in
    let canonical :=
      Bs4.find soup (λ t, Bs4.named "link" t && Bs4.multi_attr_is "rel" "canonical" t) in
    let noindex := _check_noindex soup in
    (* Calculate metrics *)
    let title_length := if Py.truthy title then Py.len title else 0 in
    let meta_desc_length :=
      if Py.truthy meta_description then Py.len meta_description else 0 in
    let h1_count := Z.of_nat (length h1_tags) in
    let canonical_present := bool_decide (canonical ≠ None) in
    (* Detect issues *)
    let issues :=
      _detect_issues title_length meta_desc_length h1_count
                     canonical_present noindex status_code in
    {| PageAnalysis.url := url;
       PageAnalysis.status_code := status_code;
       PageAnalysis.title_length := title_length;
       PageAnalysis.meta_description_length := meta_desc_length;
       PageAnalysis.h1_count := h1_count;
       PageAnalysis.canonical_present := canonical_present;
       PageAnalysis.noindex := noindex;
       PageAnalysis.page_size_kb := default 0%Q (PageData.page_size_kb page_data);
       PageAnalysis.internal_links := default 0 (PageData.internal_links page_data);
       PageAnalysis.issues := issues;
       PageAnalysis.extracted :=
         Some {| PageAnalysis.title := title;
                 PageAnalysis.meta_description := meta_description;
                 PageAnalysis.h1_tags := Bs4.get_text_strip <$> h1_tags;
                 PageAnalysis.canonical_url :=
                   match canonical with
                   | Some canonical => Bs4.get canonical "href"
                   | None => None
                   end |} |}.

End SEOAnalyzer.

(** ** [crawler.py]: navigation discovery and page fetching *)

(** What the code reads of an [httpx.Response]. *)
Module Response.
Record t := {
  status_code : Z;
  text : string;
  content : string;
  headers : gmap string string
}.
End Response.

(** [await client.get(url)]: a response, or the exception raised by a
    transport failure (DNS, connection, timeout, TLS). *)
Definition Client : Type := string → result Response.t.

(** One run of [crawl_navigation] opens two [httpx.AsyncClient]s: one in
    [_fetch_page] for the homepage, one shared by all [_crawl_page] tasks.
    Each URL is requested at most once through either, so a run's network
    is what each of the two answers per URL. *)
Class Httpx := { fetch_client : Client; crawl_client : Client }.

Module NavigationCrawler.

Definition _fetch_page {N : Httpx} (url : string) : option string :=
  match fetch_client url with
  | Ok response =>
      if Response.status_code response =? 200
      then Some (Response.text response)
      else None
  | Raise e => None
  end.

Definition _is_same_domain {U : UrlLib} (url base_url : string) : result bool :=
  parsed_url ← urlparse url;
  parsed_base ← urlparse base_url;
  mret (String.eqb (netloc parsed_url) (netloc parsed_base)).

(** The test of strategy 3:
    [lambda x: x and any(nav_term in str(x).lower() for nav_term in [...])] *)
Definition nav_class (x : option string) : bool :=
  match x with
  | None => false
  | Some x =>
      Py.truthy x
      && existsb (λ nav_term, Py.contains nav_term (Py.lower x))
                 ["nav"; "menu"; "header"]
  end.

(** [find_all('a', href=True)] *)
Definition anchors (n : Bs4.node) : list Bs4.node :=
  Bs4.find_all n (λ t, Bs4.named "a" t && Bs4.has_attr "href" t).

(** [link['href']] of a node [anchors] returned. *)
Definition href_of (link : Bs4.node) : string := default "" (Bs4.get link "href").

(** The element set the ordered fallback settles on. *)
Definition nav_elements_of (soup : Bs4.node) : list Bs4.node :=
  (* Strategy 1: Find <nav> tags *)
  let nav_elements := Bs4.find_all soup (Bs4.named "nav") in
  (* Strategy 2: Find header elements *)
  let nav_elements :=
    if bool_decide (nav_elements = [])
    then Bs4.find_all soup (Bs4.named "header") else nav_elements in
  (* Strategy 3: Find elements with navigation-related classes/IDs *)
  let nav_elements :=
    if bool_decide (nav_elements = [])
    then Bs4.find_all soup
           (λ t, Bs4.named_in ["div"; "ul"] t && Bs4.multi_attr_fn "class" nav_class t)
    else nav_elements in
  (* Strategy 4: If still nothing, take the first <ul> in the document *)
  let nav_elements :=
    if bool_decide (nav_elements = [])
    then match Bs4.find soup (Bs4.named "ul") with
         | Some first_ul => [first_ul]
         | None => nav_elements
         end
    else nav_elements in
  nav_elements.

Definition _extract_navigation_links {P : HtmlParser} {U : UrlLib}
    (html base_url : string) : result (gset string) :=
  let soup := BeautifulSoup html in
  let nav_links : gset string := ∅ in
  let nav_elements := nav_elements_of soup in
  (* Extract all links from identified navigation elements *)
  for_each nav_elements (λ nav_element nav_links,
    for_each (anchors nav_element) (λ link nav_links,
      let href := href_of link in
      (* Convert relative to absolute URL *)
      absolute_url ← urljoin base_url href;
      (* Only include same-domain links *)
      same ← _is_same_domain absolute_url base_url;
      if same : bool then
        (* Clean the URL (remove fragments) *)
        let clean_url := Py.split_first "#" absolute_url in
        if Py.truthy clean_url then mret ({[clean_url]} ∪ nav_links)
        else mret nav_links
      else mret nav_links) nav_links) nav_links.

(** The body of the [try] in [_crawl_page]. *)
Definition _crawl_page_try {P : HtmlParser} {U : UrlLib}
    (client : Client) (url base_domain : string) : result PageData.t :=
  response ← client url;
  (* Parse HTML *)
  let soup := BeautifulSoup (Response.text response) in
  (* Count internal links *)
  internal_links ←
    for_each (anchors soup) (λ link internal_links,
      absolute_url ← urljoin url (href_of link);
      same ← _is_same_domain absolute_url base_domain;
      mret (if same : bool then internal_links + 1 else internal_links)) 0;
  (* Calculate page size *)
  let page_size_kb := Qmake (Py.len (Response.content response)) 1024 in
  mret {| PageData.url := Some url;
          PageData.status_code := Some (Response.status_code response);
          PageData.html := Some (Response.text response);
          PageData.headers := Some (Response.headers response);
          PageData.page_size_kb := Some (Py.round2 page_size_kb);
          PageData.internal_links := Some internal_links;
          PageData.error := None |}.

Definition _crawl_page {P : HtmlParser} {U : UrlLib}
    (client : Client) (url base_domain : string) : PageData.t :=
  match _crawl_page_try client url base_domain with
  | Ok page => page
  | Raise e =>
      {| PageData.url := Some url;
         PageData.status_code := Some 0;
         PageData.html := Some "";
         PageData.headers := Some ∅;
         PageData.page_size_kb := Some 0%Q;
         PageData.internal_links := Some 0;
         PageData.error := Some e |}
  end.

(** [asyncio.gather] with [return_exceptions=True] yields, per task and
    in task order, the task's value or the exception it raised; the list
    comprehension after it keeps the values. The tasks run over the
    elements of the link set, in the order the set enumerates them. *)
Definition crawl_navigation {P : HtmlParser} {U : UrlLib} {N : Httpx}
    (start_url : string) : result (list PageData.t) :=
  (* Parse the base domain *)
  parsed_start ← urlparse start_url;
  let base_domain := scheme parsed_start +:+ "://" +:+ netloc parsed_start in
  (* Fetch homepage *)
  match _fetch_page start_url with
  | None => mret []
  | Some homepage_html =>
      if negb (Py.truthy homepage_html) then mret [] else
      (* Extract navigation links *)
      nav_links ← _extract_navigation_links homepage_html base_domain;
      (* Always include the homepage *)
      let nav_links := {[start_url]} ∪ nav_links in
      (* Crawl each navigation link *)
      let pages_data : list (result PageData.t) :=
        (λ url, Ok (_crawl_page crawl_client url base_domain))
          <$> elements nav_links in
      (* Filter out exceptions *)
      let valid_pages :=
        omap (λ page, match page with Ok d => Some d | Raise _ => None end)
             pages_data in
      mret valid_pages
  end.

End NavigationCrawler.

(** ** [main.py]: the summary *)

Module Summary.
Record t := {
  missing_title : Z;
  missing_meta_description : Z;
  multiple_h1 : Z;
  noindex_pages : Z;
  non_200_pages : Z
}.
End Summary.

(** One pass of the loop body of [calculate_summary]. The analyses are
    those [analyze_page] returns, which set every key the loop reads. *)
Definition summary_step (summary : Summary.t) (page : PageAnalysis.t) : Summary.t :=
  let summary :=
    if negb (PageAnalysis.status_code page =? 200)
    then {| Summary.missing_title := Summary.missing_title summary;
            Summary.missing_meta_description := Summary.missing_meta_description summary;
            Summary.multiple_h1 := Summary.multiple_h1 summary;
            Summary.noindex_pages := Summary.noindex_pages summary;
            Summary.non_200_pages := Summary.non_200_pages summary + 1 |}
    else summary in
  let summary :=
    if PageAnalysis.title_length page =? 0
    then {| Summary.missing_title := Summary.missing_title summary + 1;
            Summary.missing_meta_description := Summary.missing_meta_description summary;
            Summary.multiple_h1 := Summary.multiple_h1 summary;
            Summary.noindex_pages := Summary.noindex_pages summary;
            Summary.non_200_pages := Summary.non_200_pages summary |}
    else summary in
  let summary :=
    if PageAnalysis.meta_description_length page =? 0
    then {| Summary.missing_title := Summary.missing_title summary;
            Summary.missing_meta_description := Summary.missing_meta_description summary + 1;
            Summary.multiple_h1 := Summary.multiple_h1 summary;
            Summary.noindex_pages := Summary.noindex_pages summary;
            Summary.non_200_pages := Summary.non_200_pages summary |}
    else summary in
  let summary :=
    if PageAnalysis.h1_count page >? 1
    then {| Summary.missing_title := Summary.missing_title summary;
            Summary.missing_meta_description := Summary.missing_meta_description summary;
            Summary.multiple_h1 := Summary.multiple_h1 summary + 1;
            Summary.noindex_pages := Summary.noindex_pages summary;
            Summary.non_200_pages := Summary.non_200_pages summary |}
    else summary in
  let summary :=
    if PageAnalysis.noindex page
    then {| Summary.missing_title := Summary.missing_title summary;
            Summary.missing_meta_description := Summary.missing_meta_description summary;
            Summary.multiple_h1 := Summary.multiple_h1 summary;
            Summary.noindex_pages := Summary.noindex_pages summary + 1;
            Summary.non_200_pages := Summary.non_200_pages summary |}
    else summary in
  summary.

Definition calculate_summary (results : list PageAnalysis.t) : Summary.t :=
  let summary :=
    {| Summary.missing_title := 0;
       Summary.missing_meta_description := 0;
       Summary.multiple_h1 := 0;
       Summary.noindex_pages := 0;
       Summary.non_200_pages := 0 |} in
  fold_left summary_step results summary.

(** ** [database.py]: the audit store *)

(** The [results] dictionary [run_audit] saves. *)
Module AuditResults.
Record t := {
  url : string;
  pages_crawled : Z;
  summary : Summary.t;
  pages : list PageAnalysis.t;
  completed_at : string
}.
End AuditResults.

(** One audit's dictionary; [updated_at] is absent until the first update. *)
Module AuditRecord.
Record t := {
  audit_id : string;
  url : string;
  status : string;
  created_at : string;
  results : option AuditResults.t;
  error : option string;
  updated_at : option string
}.
End AuditRecord.

(** The store is the dictionary [self.audits]; every method runs under
    [self.lock], so each is one atomic step on it. The argument [now] is
    the value of [datetime.utcnow().isoformat()] at the call. *)
Module AuditDatabase.

Definition create_audit (now audit_id url : string)
    (audits : gmap string AuditRecord.t) : gmap string AuditRecord.t :=
  <[audit_id :=
      {| AuditRecord.audit_id := audit_id;
         AuditRecord.url := url;
         AuditRecord.status := "pending";
         AuditRecord.created_at := now;
         AuditRecord.results := None;
         AuditRecord.error := None;
         AuditRecord.updated_at := None |}]> audits.

Definition update_status (now audit_id status : string)
    (audits : gmap string AuditRecord.t) : gmap string AuditRecord.t :=
  match audits !! audit_id with
  | Some r =>
      <[audit_id :=
          {| AuditRecord.audit_id := AuditRecord.audit_id r;
             AuditRecord.url := AuditRecord.url r;
             AuditRecord.status := status;
             AuditRecord.created_at := AuditRecord.created_at r;
             AuditRecord.results := AuditRecord.results r;
             AuditRecord.error := AuditRecord.error r;
             AuditRecord.updated_at := Some now |}]> audits
  | None => audits
  end.

Definition save_results (now audit_id : string) (results : AuditResults.t)
    (audits : gmap string AuditRecord.t) : gmap string AuditRecord.t :=
  match audits !! audit_id with
  | Some r =>
      <[audit_id :=
          {| AuditRecord.audit_id := AuditRecord.audit_id r;
             AuditRecord.url := AuditRecord.url r;
             AuditRecord.status := AuditRecord.status r;
             AuditRecord.created_at := AuditRecord.created_at r;
             AuditRecord.results := Some results;
             AuditRecord.error := AuditRecord.error r;
             AuditRecord.updated_at := Some now |}]> audits
  | None => audits
  end.

Definition save_error (now audit_id error : string)
    (audits : gmap string AuditRecord.t) : gmap string AuditRecord.t :=
  match audits !! audit_id with
  | Some r =>
      <[audit_id :=
          {| AuditRecord.audit_id := AuditRecord.audit_id r;
             AuditRecord.url := AuditRecord.url r;
             AuditRecord.status := AuditRecord.status r;
             AuditRecord.created_at := AuditRecord.created_at r;
             AuditRecord.results := AuditRecord.results r;
             AuditRecord.error := Some error;
             AuditRecord.updated_at := Some now |}]> audits
  | None => audits
  end.

Definition get_audit (audit_id : string)
    (audits : gmap string AuditRecord.t) : option AuditRecord.t :=
  audits !! audit_id.

End AuditDatabase.

(** ** [main.py]: the coordinator and the HTTP front door *)

(** [datetime.utcnow().isoformat()]: what the k-th reading of the clock in
    a run returns. *)
Class Clock := { utcnow : nat → string }.

(** The body of [AuditResponse]. *)
Module AuditResponse.
Record t := {
  audit_id : string;
  status : string;
  message : string
}.
End AuditResponse.

(** What an endpoint gives back: a body, or [HTTPException]. *)
Inductive http_result (A : Type) : Type :=
| Returned (body : A)
| HTTPException (status_code : Z) (detail : string).
Arguments Returned {A} body.
Arguments HTTPException {A} status_code detail.

Module Main.

(** The global [db] and the number of clock readings so far. A store
    method reads the clock where the source calls [datetime.utcnow()]:
    [create_audit] always, the three updates only for a known id. *)
Record State := {
  db : gmap string AuditRecord.t;
  reads : nat
}.

Definition known (audit_id : string) (st : State) : bool :=
  bool_decide (is_Some (db st !! audit_id)).

Definition db_create_audit {C : Clock} (audit_id url : string) (st : State) : State :=
  {| db := AuditDatabase.create_audit (utcnow (reads st)) audit_id url (db st);
     reads := S (reads st) |}.

Definition db_update_status {C : Clock} (audit_id status : string) (st : State) : State :=
  {| db := AuditDatabase.update_status (utcnow (reads st)) audit_id status (db st);
     reads := if known audit_id st then S (reads st) else reads st |}.

Definition db_save_results {C : Clock} (audit_id : string) (results : AuditResults.t)
    (st : State) : State :=
  {| db := AuditDatabase.save_results (utcnow (reads st)) audit_id results (db st);
     reads := if known audit_id st then S (reads st) else reads st |}.

Definition db_save_error {C : Clock} (audit_id error : string) (st : State) : State :=
  {| db := AuditDatabase.save_error (utcnow (reads st)) audit_id error (db st);
     reads := if known audit_id st then S (reads st) else reads st |}.

(** [start_audit], with [uuid] the value of [str(uuid.uuid4())] and [url]
    that of [str(request.url)]. The task it creates is [run_audit] on the
    returned id and [url], run later. *)
Definition start_audit {C : Clock} (uuid url : string) (st : State)
    : AuditResponse.t * State :=
  let audit_id := uuid in
  (* Initialize audit record *)
  let st := db_create_audit audit_id url st in
  ({| AuditResponse.audit_id := audit_id;
      AuditResponse.status := "started";
      AuditResponse.message := "Audit started successfully" |}, st).

(** [run_audit], run without another task writing in between. The only
    call of the [try] body that raises in this embedding is
    [crawl_navigation]; [str(e)] is the message the exception carries. *)
Definition run_audit {P : HtmlParser} {U : UrlLib} {N : Httpx} {C : Clock}
    (audit_id url : string) (st : State) : State :=
  (* Update status *)
  let st := db_update_status audit_id "crawling" st in
  (* Crawl navigation links *)
  match NavigationCrawler.crawl_navigation url with
  | Ok pages =>
      (* Update status *)
      let st := db_update_status audit_id "analyzing" st in
      (* Analyze each page for SEO issues *)
      let results :=
        fold_left (λ results page_data,
                     let analysis := SEOAnalyzer.analyze_page page_data in
                     results ++ [analysis])
                  pages [] in
      (* Calculate summary *)
      let summary := calculate_summary results in
      (* Save results *)
      let completed_at := utcnow (reads st) in
      let st := {| db := db st; reads := S (reads st) |} in
      let st :=
        db_save_results audit_id
          {| AuditResults.url := url;
             AuditResults.pages_crawled := Z.of_nat (length results);
             AuditResults.summary := summary;
             AuditResults.pages := results;
             AuditResults.completed_at := completed_at |} st in
      db_update_status audit_id "completed" st
  | Raise e =>
      let st := db_update_status audit_id "failed" st in
      db_save_error audit_id e st
  end.

(** [get_audit_results]: a record is never an empty dictionary, so
    [not audit] holds for [None] only. *)
Definition get_audit_results (audit_id : string) (st : State)
    : http_result AuditRecord.t :=
  let audit := AuditDatabase.get_audit audit_id (db st) in
  match audit with
  | None => HTTPException 404 "Audit not found"
  | Some audit => Returned audit
  end.

End Main.

(** ** Concrete libraries, documents and networks for the examples *)

Module Examples.

Import Bs4.

Definition el (name : string) (attrs : list (string * string))
    (contents : list node) : node :=
  Tag name (list_to_map attrs) contents.

Definition document (contents : list node) : node := Tag "[document]" ∅ contents.

(** A page titled "Home" with two [h1] elements and nothing else. *)
Definition home_html : string :=
  "<html><head><title>Home</title></head><body><h1>Welcome</h1><h1>News</h1></body></html>".
Definition home_soup : node :=
  document
    [el "html" []
       [el "head" [] [el "title" [] [NavigableString "Home"]];
        el "body" []
          [el "h1" [] [NavigableString "Welcome"];
           el "h1" [] [NavigableString "News"]]]].

(** A page whose only navigation marker is an [id] attribute. *)
Definition id_nav_html : string :=
  "<html><body><div id='main-nav'><a href='/about'>About</a></div></body></html>".
Definition id_nav_div : node :=
  el "div" [("id", "main-nav")]
     [el "a" [("href", "/about")] [NavigableString "About"]].
Definition id_nav_soup : node :=
  document [el "html" [] [el "body" [] [id_nav_div]]].

(** A homepage with a [nav] of two links, and the page behind the first. *)
Definition nav_html : string :=
  "<html><body><nav><a href='/about'>About</a><a href='/contact'>Contact</a></nav></body></html>".
Definition nav_soup : node :=
  document
    [el "html" []
       [el "body" []
          [el "nav" []
             [el "a" [("href", "/about")] [NavigableString "About"];
              el "a" [("href", "/contact")] [NavigableString "Contact"]]]]].

Definition about_html : string :=
  "<html><body><a href='/'>Home</a><a href='https://other.org/'>Partner</a></body></html>".
Definition about_soup : node :=
  document
    [el "html" []
       [el "body" []
          [el "a" [("href", "/")] [NavigableString "Home"];
           el "a" [("href", "https://other.org/")] [NavigableString "Partner"]]]].

Definition contact_html : string := "<html><body><h1>Contact</h1></body></html>".
Definition contact_soup : node :=
  document [el "html" [] [el "body" [] [el "h1" [] [NavigableString "Contact"]]]].

(** An error page with a body and a link back to the homepage. *)
Definition not_found_html : string :=
  "<html><body><h1>Not Found</h1><a href='/'>Home</a></body></html>".
Definition not_found_soup : node :=
  document
    [el "html" []
       [el "body" []
          [el "h1" [] [NavigableString "Not Found"];
           el "a" [("href", "/")] [NavigableString "Home"]]]].

(** The parser on the documents above (lxml wraps anything else of
    interest here the same way; other input is not used). *)
Definition parser : HtmlParser :=
  {| BeautifulSoup html :=
       if String.eqb html home_html then home_soup
       else if String.eqb html id_nav_html then id_nav_soup
       else if String.eqb html nav_html then nav_soup
       else if String.eqb html about_html then about_soup
       else if String.eqb html contact_html then contact_soup
       else if String.eqb html not_found_html then not_found_soup
       else document [] |}.

(** A small URL library: it agrees with [urllib.parse] on absolute
    [scheme://host/path] URLs and on references that are absolute or
    start with a slash, which is all the examples use. *)
Fixpoint split_scheme (s : string) : option (string * string) :=
  match s with
  | String ":" (String "/" (String "/" rest)) => Some ("", rest)
  | String c s' =>
      match split_scheme s' with
      | Some (sch, rest) => Some (String c sch, rest)
      | None => None
      end
  | EmptyString => None
  end.

Fixpoint authority (s : string) : string :=
  match s with
  | String c s' =>
      if Ascii.eqb c "/" || Ascii.eqb c "?" || Ascii.eqb c "#" then ""
      else String c (authority s')
  | EmptyString => ""
  end.

Definition ex_urlparse (url : string) : result ParseResult :=
  match split_scheme url with
  | Some (sch, rest) =>
      let nl := authority rest in
      if Py.contains "[" nl && negb (Py.contains "]" nl)
      then Raise "Invalid IPv6 URL"
      else Ok {| scheme := sch; netloc := nl |}
  | None => Ok {| scheme := ""; netloc := "" |}
  end.

Definition ex_urljoin (base href : string) : result string :=
  match split_scheme href with
  | Some _ => _ ← ex_urlparse href; mret href
  | None =>
      p ← ex_urlparse base;
      mret (scheme p +:+ "://" +:+ netloc p +:+ href)
  end.

Definition urllib : UrlLib := {| urlparse := ex_urlparse; urljoin := ex_urljoin |}.

Definition response (status : Z) (body : string) : Response.t :=
  {| Response.status_code := status;
     Response.text := body;
     Response.content := body;
     Response.headers := {[ "content-type" := "text/html" ]} |}.

Definition start_url : string := "https://example.com".

(** The homepage answers 200 to both clients, [/about] answers 200 and
    the request for [/contact] times out. *)
Definition net_one_timeout : Httpx :=
  {| fetch_client url :=
       if String.eqb url start_url then Ok (response 200 nav_html)
       else Raise "ConnectError";
     crawl_client url :=
       if String.eqb url start_url then Ok (response 200 nav_html)
       else if String.eqb url "https://example.com/about"
            then Ok (response 200 about_html)
       else Raise "ReadTimeout" |}.

(** The same network with [/contact] answering. *)
Definition net_all_up : Httpx :=
  {| fetch_client := @fetch_client net_one_timeout;
     crawl_client url :=
       if String.eqb url "https://example.com/contact"
       then Ok (response 200 contact_html)
       else @crawl_client net_one_timeout url |}.

(** Every URL answers 404 with the error page. *)
Definition net_home_404 : Httpx :=
  {| fetch_client url := Ok (response 404 not_found_html);
     crawl_client url := Ok (response 404 not_found_html) |}.

(** The record the crawler builds for a page answering 404 with a body. *)
Definition page_404 : PageData.t :=
  NavigationCrawler._crawl_page (P:=parser) (U:=urllib) (@crawl_client net_home_404)
    "https://example.com/missing" "https://example.com".

Definition page_home : PageData.t :=
  {| PageData.url := Some start_url;
     PageData.status_code := Some 200;
     PageData.html := Some home_html;
     PageData.headers := Some ∅;
     PageData.page_size_kb := Some (Qmake 9 100);
     PageData.internal_links := Some 0;
     PageData.error := None |}.

End Examples.

(** ** Further examples *)

Module MoreExamples.

Import Bs4 Examples.

(** A page whose title holds white space only. *)
Definition blank_title_html : string :=
  "<html><head><title>   </title></head><body><h1>Welcome</h1></body></html>".
Definition blank_title_soup : node :=
  document
    [el "html" []
       [el "head" [] [el "title" [] [NavigableString "   "]];
        el "body" [] [el "h1" [] [NavigableString "Welcome"]]]].

(** The parser of the examples, extended with that page. *)
Definition parser : HtmlParser :=
  {| BeautifulSoup html :=
       if String.eqb html blank_title_html then blank_title_soup
       else @BeautifulSoup Examples.parser html |}.

Definition page_blank_title : PageData.t :=
  {| PageData.url := Some start_url;
     PageData.status_code := Some 200;
     PageData.html := Some blank_title_html;
     PageData.headers := Some ∅;
     PageData.page_size_kb := Some (Qmake 7 100);
     PageData.internal_links := Some 0;
     PageData.error := None |}.

(** A clock whose k-th reading is [T<k>]. *)
Definition clock : Clock := {| utcnow k := "T" +:+ Py.format_int (Z.of_nat k) |}.

(** The empty store, and the store after one audit was started on it. *)
Definition state0 : Main.State := {| Main.db := ∅; Main.reads := 0 |}.

Definition state1 : Main.State :=
  (Main.start_audit (C:=clock) "a1" start_url state0).2.

(** A start URL on which [urlparse] raises. *)
Definition bad_url : string := "http://[".

End MoreExamples.

(** ** Vocabulary of the statements *)

(** What [analyze_page] reads of a record: [.get("status_code", 0)] and
    [.get("html", "")]. *)
Definition page_status (page_data : PageData.t) : Z :=
  default 0 (PageData.status_code page_data).

Definition page_body (page_data : PageData.t) : string :=
  default "" (PageData.html page_data).

(** Every count of an analysis is zero and every flag is false. *)
Definition all_counts_zero (a : PageAnalysis.t) : Prop :=
  PageAnalysis.title_length a = 0 ∧
  PageAnalysis.meta_description_length a = 0 ∧
  PageAnalysis.h1_count a = 0 ∧
  PageAnalysis.page_size_kb a = 0%Q ∧
  PageAnalysis.internal_links a = 0 ∧
  PageAnalysis.canonical_present a = false ∧
  PageAnalysis.noindex a = false.

(** The issue codes that do not depend on the status code. *)
Definition fixed_codes : list string :=
  ["MISSING_TITLE"; "TITLE_TOO_SHORT"; "TITLE_TOO_LONG";
   "MISSING_META_DESCRIPTION"; "META_DESCRIPTION_TOO_SHORT";
   "META_DESCRIPTION_TOO_LONG"; "MISSING_H1"; "MULTIPLE_H1_TAGS";
   "MISSING_CANONICAL"; "NOINDEX_PRESENT"].

(** A record with status 200 and no body. *)
Definition page_empty_200 : PageData.t :=
  {| PageData.url := Some "https://example.com/empty";
     PageData.status_code := Some 200;
     PageData.html := Some "";
     PageData.headers := Some ∅;
     PageData.page_size_kb := Some 0%Q;
     PageData.internal_links := Some 0;
     PageData.error := None |}.

(** The code's same-domain test as a boolean: an exception counts as no. *)
Definition same_host_b {U : UrlLib} (url base : string) : bool :=
  match NavigationCrawler._is_same_domain url base with
  | Ok b => b
  | Raise _ => false
  end.

(** Both URLs parse and their network locations are equal / differ. *)
Definition same_host {U : UrlLib} (url base : string) : Prop :=
  ∃ pu pb, urlparse url = Ok pu ∧ urlparse base = Ok pb ∧ netloc pu = netloc pb.

Definition host_differs {U : UrlLib} (url base : string) : Prop :=
  ∃ pu pb, urlparse url = Ok pu ∧ urlparse base = Ok pb ∧ netloc pu ≠ netloc pb.

(** A hyperlink of a page at [url] that the crawler counts as internal. *)
Definition internal_link_b {U : UrlLib} (url base : string) (link : Bs4.node) : bool :=
  match urljoin url (NavigationCrawler.href_of link) with
  | Ok a => same_host_b a base
  | Raise _ => false
  end.

(** The hyperlinks the navigation extractor visits: those inside the
    elements the ordered fallback settles on. *)
Definition candidate_links (soup : Bs4.node) : list Bs4.node :=
  NavigationCrawler.nav_elements_of soup ≫= NavigationCrawler.anchors.

(** [scheme://netloc] of a parsed start URL. *)
Definition base_domain_of (parsed_start : ParseResult) : string :=
  scheme parsed_start +:+ "://" +:+ netloc parsed_start.

(** The codes each rule of [_detect_issues] contributes, rule by rule. *)
Definition title_issue (title_length : Z) : list string :=
  if title_length =? 0 then ["MISSING_TITLE"]
  else if title_length <? SEOAnalyzer.MIN_TITLE_LENGTH then ["TITLE_TOO_SHORT"]
  else if title_length >? SEOAnalyzer.MAX_TITLE_LENGTH then ["TITLE_TOO_LONG"]
  else [].

Definition meta_issue (meta_desc_length : Z) : list string :=
  if meta_desc_length =? 0 then ["MISSING_META_DESCRIPTION"]
  else if meta_desc_length <? SEOAnalyzer.MIN_META_DESC_LENGTH
       then ["META_DESCRIPTION_TOO_SHORT"]
  else if meta_desc_length >? SEOAnalyzer.MAX_META_DESC_LENGTH
       then ["META_DESCRIPTION_TOO_LONG"]
  else [].

Definition h1_issue (h1_count : Z) : list string :=
  if h1_count =? 0 then ["MISSING_H1"]
  else if h1_count >? 1 then ["MULTIPLE_H1_TAGS"]
  else [].

Definition canonical_issue (canonical_present : bool) : list string :=
  if canonical_present then [] else ["MISSING_CANONICAL"].

Definition noindex_issue (noindex : bool) : list string :=
  if noindex then ["NOINDEX_PRESENT"] else [].

Definition status_issue (status_code : Z) : list string :=
  if status_code =? 200 then [] else ["HTTP_" +:+ Py.format_int status_code].

(** The ten fixed codes followed by the status code's, in check order. *)
Definition check_order (status_code : Z) : list string :=
  fixed_codes ++ ["HTTP_" +:+ Py.format_int status_code].

(** * The rule engine *)

Lemma truthy_false s : Py.truthy s = false ↔ s = "".
Proof.
  unfold Py.truthy. destruct s; simpl; split; congruence.
Qed.

Lemma truthy_true s : Py.truthy s = true ↔ s ≠ "".
Proof.
  unfold Py.truthy. destruct s; simpl; split; congruence.
Qed.

Section RuleEngine.
Context {P : HtmlParser}.
Import SEOAnalyzer.

(** The guard of [analyze_page] in terms of the record. *)
Lemma short_circuit_guard page_data :
  negb (Py.truthy (page_body page_data)) || negb (page_status page_data =? 200) = true
  ↔ page_body page_data = "" ∨ page_status page_data ≠ 200.
Proof.
  rewrite orb_true_iff, !negb_true_iff, truthy_false, Z.eqb_neq. tauto.
Qed.

Lemma analyze_page_not_200 page_data :
  page_status page_data ≠ 200 →
  PageAnalysis.issues (analyze_page page_data) = ["PAGE_NOT_ACCESSIBLE"].
Proof.
  intros Hs. unfold analyze_page. fold (page_status page_data) (page_body page_data).
  apply Z.eqb_neq in Hs. rewrite Hs, orb_true_r. reflexivity.
Qed.

(** C1. On the short-circuit branch of [analyze_page] the issue list has
    exactly one code: [PAGE_NOT_ACCESSIBLE] when the status code is not
    200, and [NO_HTML_CONTENT] when it is 200 and the body is empty. *)
Theorem analyze_page_short_circuit_issue page_data :
  (page_status page_data ≠ 200 →
     PageAnalysis.issues (analyze_page page_data) = ["PAGE_NOT_ACCESSIBLE"]) ∧
  (page_status page_data = 200 → page_body page_data = "" →
     PageAnalysis.issues (analyze_page page_data) = ["NO_HTML_CONTENT"]).
Proof.
  split.
  - apply analyze_page_not_200.
  - intros Hs Hb. unfold analyze_page.
    fold (page_status page_data) (page_body page_data).
    rewrite Hs, Hb. reflexivity.
Qed.

(** C4, amended. On the short-circuit branch the three counts the
    analyzer computes are zero and its two flags are false, while the
    status code, the page size and the internal-link count are those of
    the input record (zero where the record has no such key). *)
Theorem analyze_page_short_circuit_fields page_data :
  page_body page_data = "" ∨ page_status page_data ≠ 200 →
  let a := analyze_page page_data in
  PageAnalysis.title_length a = 0 ∧
  PageAnalysis.meta_description_length a = 0 ∧
  PageAnalysis.h1_count a = 0 ∧
  PageAnalysis.canonical_present a = false ∧
  PageAnalysis.noindex a = false ∧
  PageAnalysis.status_code a = page_status page_data ∧
  PageAnalysis.page_size_kb a = default 0%Q (PageData.page_size_kb page_data) ∧
  PageAnalysis.internal_links a = default 0 (PageData.internal_links page_data).
Proof.
  intros Hg%short_circuit_guard a. subst a. unfold analyze_page.
  fold (page_status page_data) (page_body page_data). rewrite Hg.
  simpl. repeat split.
Qed.

(** With status 200 [_detect_issues] reports fixed codes only. *)
Lemma detect_issues_200_fixed tl ml h c n :
  Forall (λ x, x ∈ fixed_codes) (_detect_issues tl ml h c n 200).
Proof.
  unfold _detect_issues.
  change (negb (200 =? 200)) with false. cbv iota zeta.
  repeat match goal with
    | |- Forall _ (if ?b then _ else _) => destruct b
    | |- Forall _ (_ ++ [_]) =>
        apply Forall_app; split;
        [|apply Forall_singleton; unfold fixed_codes; repeat constructor]
    | |- Forall _ [] => constructor
    end.
Qed.

Lemma http_code_not_fixed status :
  "HTTP_" +:+ Py.format_int status ∉ "PAGE_NOT_ACCESSIBLE" :: "NO_HTML_CONTENT" :: fixed_codes.
Proof.
  unfold fixed_codes. generalize (Py.format_int status). intros s Hin.
  repeat (apply elem_of_cons in Hin as [Heq | Hin]; [cbv in Heq; congruence|]).
  inversion Hin.
Qed.

(** C5, amended. [analyze_page] never reports [HTTP_<status>]: a record
    with a status code other than 200, with or without a body, gets
    [PAGE_NOT_ACCESSIBLE] alone. The code is produced only by
    [_detect_issues] called directly with a status code other than 200,
    which appends it as the last issue. *)
Theorem http_status_issue_only_from_detect_issues :
  (∀ page_data,
     page_status page_data ≠ 200 →
     PageAnalysis.issues (analyze_page page_data) = ["PAGE_NOT_ACCESSIBLE"]) ∧
  (∀ page_data,
     "HTTP_" +:+ Py.format_int (page_status page_data)
       ∉ PageAnalysis.issues (analyze_page page_data)) ∧
  (∀ title_length meta_desc_length h1_count canonical_present noindex status_code,
     status_code ≠ 200 →
     last (_detect_issues title_length meta_desc_length h1_count
                          canonical_present noindex status_code)
     = Some ("HTTP_" +:+ Py.format_int status_code)).
Proof.
  split; [apply analyze_page_not_200|split].
  - intros page_data Hin.
    apply (http_code_not_fixed (page_status page_data)).
    revert Hin. unfold analyze_page.
    fold (page_status page_data) (page_body page_data).
    destruct (negb (Py.truthy (page_body page_data))
              || negb (page_status page_data =? 200)) eqn:Hg.
    + simpl. destruct (negb (page_status page_data =? 200));
        intros ->%list_elem_of_singleton; repeat constructor.
    + apply orb_false_iff in Hg as [_ Hs].
      apply negb_false_iff, Z.eqb_eq in Hs. rewrite Hs. simpl. intros Hin.
      do 2 apply list_elem_of_further.
      exact (proj1 (Forall_forall _ _) (detect_issues_200_fixed _ _ _ _ _) _ Hin).
  - intros tl ml h c n st Hst. unfold _detect_issues.
    apply Z.eqb_neq in Hst. rewrite Hst. simpl. apply last_snoc.
Qed.

(** C8, amended. A page with status 200 whose title is "Home", with no
    meta description, two [h1] elements, no canonical link and no robots
    meta gets the issues [TITLE_TOO_SHORT], [MISSING_META_DESCRIPTION],
    [MULTIPLE_H1_TAGS], [MISSING_CANONICAL], in that order: a title of
    four characters is too short, not missing. *)
Theorem analyze_page_home_scenario page_data :
  let soup := BeautifulSoup (page_body page_data) in
  page_status page_data = 200 →
  page_body page_data ≠ "" →
  _extract_title soup = "Home" →
  Bs4.find soup (λ t, Bs4.named "meta" t && Bs4.attr_is "name" "description" t) = None →
  Bs4.find soup (λ t, Bs4.named "meta" t && Bs4.attr_is "property" "og:description" t) = None →
  length (Bs4.find_all soup (Bs4.named "h1")) = 2%nat →
  Bs4.find soup (λ t, Bs4.named "link" t && Bs4.multi_attr_is "rel" "canonical" t) = None →
  Bs4.find soup (λ t, Bs4.named "meta" t && Bs4.attr_is "name" "robots" t) = None →
  PageAnalysis.issues (analyze_page page_data)
  = ["TITLE_TOO_SHORT"; "MISSING_META_DESCRIPTION"; "MULTIPLE_H1_TAGS";
     "MISSING_CANONICAL"].
Proof.
  intros soup Hs Hb Ht Hd Hog Hh Hc Hr. unfold analyze_page.
  fold (page_status page_data) (page_body page_data). fold soup.
  apply truthy_true in Hb. rewrite Hs, Hb. simpl.
  unfold _extract_meta_description, _check_noindex.
  rewrite Ht, Hd, Hog, Hh, Hc, Hr. reflexivity.
Qed.

End RuleEngine.

(** * The summary *)

Section SummaryCounters.

Lemma summary_step_spec s page :
  let s' := summary_step s page in
  (Summary.missing_title s ≤ Summary.missing_title s' ≤ Summary.missing_title s + 1) ∧
  (Summary.missing_meta_description s ≤ Summary.missing_meta_description s'
     ≤ Summary.missing_meta_description s + 1) ∧
  (Summary.multiple_h1 s ≤ Summary.multiple_h1 s' ≤ Summary.multiple_h1 s + 1) ∧
  (Summary.noindex_pages s ≤ Summary.noindex_pages s' ≤ Summary.noindex_pages s + 1) ∧
  Summary.non_200_pages s'
  = Summary.non_200_pages s
    + (if decide (PageAnalysis.status_code page ≠ 200) then 1 else 0).
Proof.
  unfold summary_step.
  destruct (decide (PageAnalysis.status_code page ≠ 200)) as [Hne|Heq].
  - apply Z.eqb_neq in Hne. rewrite Hne. simpl.
    destruct (_ =? 0), (_ =? 0), (_ >? 1), (PageAnalysis.noindex page);
      simpl; lia.
  - apply dec_stable in Heq. rewrite Heq. simpl.
    destruct (_ =? 0), (_ =? 0), (_ >? 1), (PageAnalysis.noindex page);
      simpl; lia.
Qed.

Lemma summary_fold_spec results : ∀ s,
  let s' := fold_left summary_step results s in
  let n := Z.of_nat (length results) in
  (Summary.missing_title s ≤ Summary.missing_title s' ≤ Summary.missing_title s + n) ∧
  (Summary.missing_meta_description s ≤ Summary.missing_meta_description s'
     ≤ Summary.missing_meta_description s + n) ∧
  (Summary.multiple_h1 s ≤ Summary.multiple_h1 s' ≤ Summary.multiple_h1 s + n) ∧
  (Summary.noindex_pages s ≤ Summary.noindex_pages s' ≤ Summary.noindex_pages s + n) ∧
  Summary.non_200_pages s'
  = Summary.non_200_pages s
    + Z.of_nat (length (filter (λ page, PageAnalysis.status_code page ≠ 200) results)).
Proof.
  induction results as [|page results IH]; intros s.
  - simpl. lia.
  - cbn [fold_left]. specialize (IH (summary_step s page)).
    pose proof (summary_step_spec s page) as Hstep.
    cbv zeta in IH, Hstep. rewrite filter_cons.
    destruct (decide (PageAnalysis.status_code page ≠ 200));
      cbn [length]; cbv zeta; lia.
Qed.

(** C9. Each of the five counters of [calculate_summary] is at most the
    number of analyses (and not negative), and [non_200_pages] is the
    number of analyses whose status code is not 200. *)
Theorem calculate_summary_counters (results : list PageAnalysis.t) :
  let summary := calculate_summary results in
  let n := Z.of_nat (length results) in
  0 ≤ Summary.missing_title summary ≤ n ∧
  0 ≤ Summary.missing_meta_description summary ≤ n ∧
  0 ≤ Summary.multiple_h1 summary ≤ n ∧
  0 ≤ Summary.noindex_pages summary ≤ n ∧
  0 ≤ Summary.non_200_pages summary ≤ n ∧
  Summary.non_200_pages summary
  = Z.of_nat (length (filter (λ page, PageAnalysis.status_code page ≠ 200) results)).
Proof.
  intros summary n. subst summary. unfold calculate_summary.
  pose proof (summary_fold_spec results
                {| Summary.missing_title := 0;
                   Summary.missing_meta_description := 0;
                   Summary.multiple_h1 := 0;
                   Summary.noindex_pages := 0;
                   Summary.non_200_pages := 0 |}) as Hf.
  cbv zeta in Hf. simpl in Hf.
  pose proof (length_filter (λ page, PageAnalysis.status_code page ≠ 200) results).
  subst n. lia.
Qed.

End SummaryCounters.

(** * The audit store *)

Section Store.
Import AuditDatabase.

(** C10. For an audit id that is not in the store, [update_status],
    [save_results] and [save_error] return the store unchanged (they have
    no raising path), and [get_audit] returns [None]. *)
Theorem store_unknown_id_noop (audits : gmap string AuditRecord.t)
    (now audit_id status error : string) (results : AuditResults.t) :
  audits !! audit_id = None →
  update_status now audit_id status audits = audits ∧
  save_results now audit_id results audits = audits ∧
  save_error now audit_id error audits = audits ∧
  get_audit audit_id audits = None.
Proof.
  intros Hnone. unfold update_status, save_results, save_error, get_audit.
  rewrite Hnone. auto.
Qed.

End Store.

(** * The crawler *)

(** An invariant of the accumulator that every pass of a loop keeps holds
    at the end of the loop. *)
Lemma for_each_inv {A S} (I : S → Prop) (xs : list A) (body : A → S → result S) :
  (∀ x s s', x ∈ xs → I s → body x s = Ok s' → I s') →
  ∀ acc r, I acc → for_each xs body acc = Ok r → I r.
Proof.
  induction xs as [|x xs IH]; intros Hbody acc r Hacc Hrun.
  - simpl in Hrun. congruence.
  - simpl in Hrun. destruct (body x acc) as [acc'|e] eqn:Hx; simpl in Hrun.
    + apply (IH (λ y s s' Hy, Hbody y s s' (list_elem_of_further _ _ _ Hy)) acc' r).
      * apply (Hbody x acc acc'); [constructor|assumption..].
      * assumption.
    + discriminate.
Qed.

(** A loop whose passes add one for the elements passing a test, and
    nothing for the others, ends, when no pass raises, with the number of
    passing elements added. *)
Lemma for_each_count {A} (xs : list A) (body : A → Z → result Z) (p : A → bool) :
  (∀ x n n', body x n = Ok n' → n' = if p x then n + 1 else n) →
  ∀ (acc r : Z),
    for_each xs body acc = Ok r →
    r = acc + Z.of_nat (length (filter (λ x, p x = true) xs)).
Proof.
  intros Hp. induction xs as [|x xs IH]; intros acc r Hrun.
  - simpl in Hrun. injection Hrun as <-. simpl. lia.
  - simpl in Hrun. destruct (body x acc) as [n'|e] eqn:Hx; simpl in Hrun; [|discriminate].
    apply IH in Hrun. apply Hp in Hx. rewrite filter_cons.
    destruct (p x); simpl in *; lia.
Qed.

(** Keeping the values of tasks that all returned one keeps them all. *)
Lemma gather_all_values {A B} (f : A → B) (l : list A) :
  omap (λ page : result B, match page with Ok d => Some d | Raise _ => None end)
       ((λ x, Ok (f x)) <$> l)
  = f <$> l.
Proof.
  induction l as [|x l IH]; [reflexivity|].
  csimpl. f_equal. exact IH.
Qed.

Section Crawler.
Context {P : HtmlParser} {U : UrlLib}.
Import NavigationCrawler.

Lemma is_same_domain_true url base :
  _is_same_domain url base = Ok true ↔ same_host url base.
Proof.
  unfold _is_same_domain, same_host. split.
  - destruct (urlparse url) as [pu|] eqn:Hu; simpl; [|discriminate].
    destruct (urlparse base) as [pb|] eqn:Hb; simpl; [|discriminate].
    intros [= Heq%String.eqb_eq]. eauto.
  - intros (pu & pb & -> & -> & Heq). simpl.
    apply String.eqb_eq in Heq. rewrite Heq. reflexivity.
Qed.

Lemma same_host_b_true url base : same_host_b url base = true ↔ same_host url base.
Proof.
  rewrite <- is_same_domain_true. unfold same_host_b.
  destruct (_is_same_domain url base) as [[]|]; split; congruence.
Qed.

Lemma host_differs_not_same url base : host_differs url base → same_host_b url base = false.
Proof.
  intros (pu & pb & Hu & Hb & Hne). unfold same_host_b, _is_same_domain.
  rewrite Hu, Hb. simpl. apply String.eqb_neq. assumption.
Qed.

Lemma internal_link_b_true url base link :
  internal_link_b url base link = true
  ↔ ∃ a, urljoin url (href_of link) = Ok a ∧ same_host a base.
Proof.
  unfold internal_link_b. split.
  - destruct (urljoin url (href_of link)) as [a|]; [|discriminate].
    intros Hs%same_host_b_true. eauto.
  - intros (a & -> & Hs). apply same_host_b_true. assumption.
Qed.

(** ** The navigation extractor *)

Lemma extract_navigation_links_member html base links u :
  _extract_navigation_links html base = Ok links →
  u ∈ links →
  ∃ link a,
    link ∈ candidate_links (BeautifulSoup html) ∧
    urljoin base (href_of link) = Ok a ∧
    same_host a base ∧
    u = Py.split_first "#" a.
Proof.
  unfold _extract_navigation_links, candidate_links. intros Hrun.
  set (soup := BeautifulSoup html) in *.
  set (I := λ s : gset string,
         ∀ u, u ∈ s →
           ∃ link a, link ∈ nav_elements_of soup ≫= anchors ∧
             urljoin base (href_of link) = Ok a ∧ same_host a base ∧
             u = Py.split_first "#" a).
  revert u. change (I links).
  eapply (for_each_inv I); [|intros u Hu; by apply not_elem_of_empty in Hu|exact Hrun].
  intros nav_element s s' Hel Hs Hinner.
  eapply (for_each_inv I); [|exact Hs|exact Hinner].
  clear s s' Hs Hinner. intros link s s' Hlink Hs Hbody. cbv beta zeta in Hbody.
  destruct (urljoin base (href_of link)) as [a|] eqn:Hj; simpl in Hbody; [|discriminate].
  destruct (_is_same_domain a base) as [same|] eqn:Hsame; simpl in Hbody; [|discriminate].
  destruct same; [|injection Hbody as <-; exact Hs].
  destruct (Py.truthy (Py.split_first "#" a)); injection Hbody as <-; [|exact Hs].
  intros u [->%elem_of_singleton|Hu]%elem_of_union; [|by apply Hs].
  exists link, a. split_and!; [|assumption|by apply is_same_domain_true|reflexivity].
  apply list_elem_of_bind. eauto.
Qed.

(** ** One page *)

Lemma crawl_page_try_internal_links client url base page :
  _crawl_page_try client url base = Ok page →
  ∃ response,
    client url = Ok response ∧
    PageData.internal_links page
    = Some (Z.of_nat (length (filter (λ link, internal_link_b url base link = true)
                                     (anchors (BeautifulSoup (Response.text response)))))).
Proof.
  unfold _crawl_page_try. intros Hrun.
  destruct (client url) as [response|] eqn:Hget; simpl in Hrun; [|discriminate].
  exists response. split; [reflexivity|].
  match type of Hrun with
  | context [for_each ?xs ?body ?acc] => destruct (for_each xs body acc) as [n|] eqn:Hloop
  end; simpl in Hrun; [|discriminate].
  injection Hrun as <-. simpl. f_equal.
  apply (for_each_count _ _ (internal_link_b url base)) in Hloop; [lia|].
  intros link k k'. unfold internal_link_b, same_host_b.
  destruct (urljoin url (href_of link)); simpl; [|discriminate].
  destruct (_is_same_domain _ base) as [[]|]; simpl; [| |discriminate].
  all: intros [= <-]; reflexivity.
Qed.

Lemma crawl_page_raise client url base e :
  _crawl_page_try client url base = Raise e →
  _crawl_page client url base
  = {| PageData.url := Some url;
       PageData.status_code := Some 0;
       PageData.html := Some "";
       PageData.headers := Some ∅;
       PageData.page_size_kb := Some 0%Q;
       PageData.internal_links := Some 0;
       PageData.error := Some e |}.
Proof. unfold _crawl_page. intros ->. reflexivity. Qed.

Lemma crawl_page_url client url base :
  PageData.url (_crawl_page client url base) = Some url.
Proof.
  unfold _crawl_page.
  destruct (_crawl_page_try client url base) as [page|e] eqn:Hrun; [|reflexivity].
  unfold _crawl_page_try in Hrun.
  destruct (client url); simpl in Hrun; [|discriminate].
  match type of Hrun with
  | context [for_each ?xs ?body ?acc] => destruct (for_each xs body acc)
  end; simpl in Hrun; [|discriminate].
  injection Hrun as <-. reflexivity.
Qed.

(** The record of a page depends on the client's answer for that page only. *)
Lemma crawl_page_ext (client client' : Client) url base :
  client' url = client url →
  _crawl_page client' url base = _crawl_page client url base.
Proof. unfold _crawl_page, _crawl_page_try. intros ->. reflexivity. Qed.

(** C7. Every URL in the set the navigation extractor returns is the
    fragment-stripped resolution of a hyperlink whose resolved host is
    the base URL's, so a hyperlink resolving to another host contributes
    nothing, and (where stripping the fragment of the links at hand keeps
    their host, as it does in [urllib]) no URL of the set has another
    host; and the internal-link total of a page is the number of its
    hyperlinks whose resolved host is the site's, which leaves out every
    hyperlink resolving to another host (the total is 0 when the page's
    crawl fails). Host is the network location, as in [_is_same_domain]. *)
Theorem foreign_links_excluded :
  (∀ html base links u,
     _extract_navigation_links html base = Ok links →
     u ∈ links →
     ∃ link a,
       link ∈ candidate_links (BeautifulSoup html) ∧
       urljoin base (href_of link) = Ok a ∧
       same_host a base ∧ ¬ host_differs a base ∧
       u = Py.split_first "#" a) ∧
  (∀ html base links,
     _extract_navigation_links html base = Ok links →
     (∀ link a,
        link ∈ candidate_links (BeautifulSoup html) →
        urljoin base (href_of link) = Ok a →
        same_host a base →
        same_host (Py.split_first "#" a) base) →
     ∀ u, u ∈ links → same_host u base ∧ ¬ host_differs u base) ∧
  (∀ client url base page,
     _crawl_page_try client url base = Ok page →
     ∃ response,
       client url = Ok response ∧
       _crawl_page client url base = page ∧
       PageData.internal_links page
       = Some (Z.of_nat
                 (length (filter (λ link, internal_link_b url base link = true)
                            (anchors (BeautifulSoup (Response.text response))))))) ∧
  (∀ client url base e,
     _crawl_page_try client url base = Raise e →
     PageData.internal_links (_crawl_page client url base) = Some 0) ∧
  (∀ url base link,
     internal_link_b url base link = true
     ↔ ∃ a, urljoin url (href_of link) = Ok a ∧ same_host a base) ∧
  (∀ url base link a,
     urljoin url (href_of link) = Ok a →
     host_differs a base →
     internal_link_b url base link = false).
Proof.
  split_and!.
  - intros html base links u Hrun Hu.
    destruct (extract_navigation_links_member html base links u Hrun Hu)
      as (link & a & Hl & Hj & Hs & ->).
    exists link, a. split_and!; try done.
    intros Hd%host_differs_not_same. apply same_host_b_true in Hs. congruence.
  - intros html base links Hrun Hstrip u Hu.
    destruct (extract_navigation_links_member html base links u Hrun Hu)
      as (link & a & Hl & Hj & Hs & ->).
    specialize (Hstrip link a Hl Hj Hs). split; [assumption|].
    intros Hd%host_differs_not_same. apply same_host_b_true in Hstrip. congruence.
  - intros client url base page Hrun.
    destruct (crawl_page_try_internal_links client url base page Hrun)
      as (response & Hget & Hn).
    exists response. split_and!; try done.
    unfold _crawl_page. rewrite Hrun. reflexivity.
  - intros client url base e Hrun. rewrite (crawl_page_raise _ _ _ _ Hrun). reflexivity.
  - apply internal_link_b_true.
  - intros url base link a Hj Hd. unfold internal_link_b. rewrite Hj.
    apply host_differs_not_same. assumption.
Qed.

(** ** The whole crawl *)

Lemma fetch_page_spec (N : Httpx) url html :
  _fetch_page url = Some html
  ↔ ∃ response, fetch_client url = Ok response ∧
      Response.status_code response = 200 ∧ Response.text response = html.
Proof.
  unfold _fetch_page. split.
  - destruct (fetch_client url) as [response|]; [|discriminate].
    destruct (Response.status_code response =? 200) eqn:Hs; [|discriminate].
    intros [= <-]. apply Z.eqb_eq in Hs. eauto.
  - intros (response & -> & Hs & <-). rewrite Hs. reflexivity.
Qed.

(** Past the homepage guard the crawl returns one record per link. *)
Lemma crawl_navigation_proceeds (N : Httpx) start p html links :
  urlparse start = Ok p →
  _fetch_page start = Some html →
  html ≠ "" →
  _extract_navigation_links html (base_domain_of p) = Ok links →
  crawl_navigation start
  = Ok ((λ url, _crawl_page crawl_client url (base_domain_of p))
          <$> elements ({[start]} ∪ links)).
Proof.
  intros Hp Hf Hne%truthy_true He. unfold crawl_navigation.
  rewrite Hp. simpl. rewrite Hf, Hne. simpl.
  fold (base_domain_of p). rewrite He. simpl.
  unfold mret, result_ret. f_equal.
  apply (gather_all_values (λ url, _crawl_page crawl_client url (base_domain_of p))).
Qed.

Lemma filter_url_absent (f : string → PageData.t) u (l : list string) :
  (∀ v, PageData.url (f v) = Some v) →
  u ∉ l →
  filter (λ page, PageData.url page = Some u) (f <$> l) = [].
Proof.
  intros Hf. induction l as [|x l IH]; intros Hu; [reflexivity|].
  apply not_elem_of_cons in Hu as [Hne Hu]. csimpl.
  rewrite filter_cons_False; [by apply IH|].
  rewrite Hf. congruence.
Qed.

Lemma filter_url_once (f : string → PageData.t) u (l : list string) :
  (∀ v, PageData.url (f v) = Some v) →
  NoDup l →
  u ∈ l →
  filter (λ page, PageData.url page = Some u) (f <$> l) = [f u].
Proof.
  intros Hf Hnd. induction Hnd as [|x l Hx Hnd IH]; intros Hu.
  - inversion Hu.
  - csimpl. destruct (decide (x = u)) as [->|Hne].
    + rewrite filter_cons_True by apply Hf.
      f_equal. by apply filter_url_absent.
    + rewrite filter_cons_False by (rewrite Hf; congruence).
      apply IH. apply elem_of_cons in Hu as [->|Hu]; [congruence|assumption].
Qed.

Lemma filter_url_others (f f' : string → PageData.t) u (l : list string) :
  (∀ v, PageData.url (f v) = Some v) →
  (∀ v, PageData.url (f' v) = Some v) →
  (∀ v, v ≠ u → f' v = f v) →
  filter (λ page, PageData.url page ≠ Some u) (f' <$> l)
  = filter (λ page, PageData.url page ≠ Some u) (f <$> l).
Proof.
  intros Hf Hf' Hext. induction l as [|x l IH]; [reflexivity|].
  csimpl. destruct (decide (x = u)) as [->|Hne].
  - rewrite !filter_cons_False; [exact IH|rewrite Hf; tauto|rewrite Hf'; tauto].
  - rewrite !filter_cons_True; [|rewrite Hf; congruence|rewrite Hf'; congruence].
    rewrite (Hext x Hne), IH. reflexivity.
Qed.

(** C2. In a crawl that gets past the homepage, a navigation link whose
    fetch or internal-link count raises still has exactly one record in
    the output of [crawl_navigation], with status code 0, empty body and
    zero size and link count, and [analyze_page] gives that record the
    single issue [PAGE_NOT_ACCESSIBLE]; every link's own record is in the
    output, and the records of the other links are the same whatever the
    network does for the failed one. *)
Theorem crawl_navigation_isolates_failure (N : Httpx) start p html links u e :
  urlparse start = Ok p →
  _fetch_page start = Some html →
  html ≠ "" →
  _extract_navigation_links html (base_domain_of p) = Ok links →
  u ∈ ({[start]} ∪ links : gset string) →
  _crawl_page_try crawl_client u (base_domain_of p) = Raise e →
  ∃ pages,
    crawl_navigation start = Ok pages ∧
    length (filter (λ page, PageData.url page = Some u) pages) = 1%nat ∧
    (∀ page, page ∈ pages → PageData.url page = Some u →
       PageData.status_code page = Some 0 ∧
       PageData.html page = Some "" ∧
       PageData.page_size_kb page = Some 0%Q ∧
       PageData.internal_links page = Some 0 ∧
       PageAnalysis.issues (SEOAnalyzer.analyze_page page) = ["PAGE_NOT_ACCESSIBLE"]) ∧
    (∀ v, v ∈ ({[start]} ∪ links : gset string) →
       _crawl_page crawl_client v (base_domain_of p) ∈ pages) ∧
    (∀ N' : Httpx,
       @fetch_client N' start = @fetch_client N start →
       (∀ v, v ≠ u → @crawl_client N' v = @crawl_client N v) →
       ∃ pages',
         @crawl_navigation P U N' start = Ok pages' ∧
         filter (λ page, PageData.url page ≠ Some u) pages'
         = filter (λ page, PageData.url page ≠ Some u) pages).
Proof.
  intros Hp Hf Hne He Hu Hfail.
  set (f := λ url, _crawl_page (@crawl_client N) url (base_domain_of p)).
  assert (Hurl : ∀ v, PageData.url (f v) = Some v) by (intros v; apply crawl_page_url).
  exists (f <$> elements ({[start]} ∪ links : gset string)). split_and!.
  - by apply crawl_navigation_proceeds with (html := html).
  - rewrite (filter_url_once f u); [reflexivity|assumption|apply NoDup_elements|].
    by apply elem_of_elements.
  - intros page (v & -> & Hv)%list_elem_of_fmap Hpu.
    rewrite Hurl in Hpu. injection Hpu as ->. unfold f.
    rewrite (crawl_page_raise _ _ _ _ Hfail). split_and!; reflexivity.
  - intros v Hv. apply list_elem_of_fmap. exists v. split; [reflexivity|].
    by apply elem_of_elements.
  - intros N' Hfetch Hcrawl.
    exists ((λ url, _crawl_page (@crawl_client N') url (base_domain_of p))
              <$> elements ({[start]} ∪ links : gset string)).
    split.
    + apply crawl_navigation_proceeds with (html := html); try assumption.
      revert Hf. unfold _fetch_page. by rewrite Hfetch.
    + apply filter_url_others; try assumption.
      * intros v. apply crawl_page_url.
      * intros v Hv. apply crawl_page_ext. by apply Hcrawl.
Qed.

(** C3, amended. [crawl_navigation] returns the empty sequence exactly
    when the start URL parses and the homepage fetch yields no usable
    body: on a transport failure, on any status code other than 200 (for
    which [_fetch_page] returns [None], neither the status code nor the
    body), or on a 200 response with an empty body. Only a 200 response
    with a non-empty body lets the crawl proceed. *)
Theorem crawl_navigation_empty_iff (N : Httpx) start :
  (crawl_navigation start = Ok []
   ↔ (∃ p, urlparse start = Ok p) ∧
     ¬ ∃ response, fetch_client start = Ok response ∧
         Response.status_code response = 200 ∧ Response.text response ≠ "") ∧
  (∀ response,
     fetch_client start = Ok response →
     Response.status_code response ≠ 200 →
     _fetch_page start = None) ∧
  (∀ e, fetch_client start = Raise e → _fetch_page start = None).
Proof.
  split_and!.
  - split.
    + intros Hrun. destruct (urlparse start) as [p|] eqn:Hp; cycle 1.
      { unfold crawl_navigation in Hrun. rewrite Hp in Hrun. discriminate. }
      split; [eauto|]. intros (response & Hget & Hs & Hbody).
      assert (Hf : _fetch_page start = Some (Response.text response))
        by (apply fetch_page_spec; eauto).
      destruct (_extract_navigation_links (Response.text response) (base_domain_of p))
        as [links|e] eqn:He.
      * rewrite (crawl_navigation_proceeds N start p _ links Hp Hf Hbody He) in Hrun.
        injection Hrun as Hnil. apply fmap_nil_inv in Hnil.
        assert (Hin : start ∈ elements ({[start]} ∪ links : gset string))
          by (apply elem_of_elements, elem_of_union_l, elem_of_singleton; reflexivity).
        rewrite Hnil in Hin. inversion Hin.
      * unfold crawl_navigation in Hrun. rewrite Hp in Hrun. simpl in Hrun.
        apply truthy_true in Hbody. rewrite Hf, Hbody in Hrun. simpl in Hrun.
        fold (base_domain_of p) in Hrun. rewrite He in Hrun. discriminate.
    + intros [[p Hp] Hno]. unfold crawl_navigation. rewrite Hp. simpl.
      destruct (_fetch_page start) as [html|] eqn:Hf; [|reflexivity].
      destruct (Py.truthy html) eqn:Ht; [|reflexivity].
      exfalso. apply Hno. apply fetch_page_spec in Hf as (response & Hget & Hs & <-).
      apply truthy_true in Ht. eauto.
  - intros response Hget Hs. unfold _fetch_page. rewrite Hget.
    apply Z.eqb_neq in Hs. rewrite Hs. reflexivity.
  - intros e Hget. unfold _fetch_page. rewrite Hget. reflexivity.
Qed.

End Crawler.

(** * The statements on concrete inputs *)

Section Instances.
Import Examples SEOAnalyzer NavigationCrawler AuditDatabase.

Lemma analyze_page_short_circuit_issue_witness :
  PageAnalysis.issues (analyze_page (P:=parser) page_404) = ["PAGE_NOT_ACCESSIBLE"] ∧
  PageAnalysis.issues (analyze_page (P:=parser) page_empty_200) = ["NO_HTML_CONTENT"].
Proof.
  split.
  - apply (proj1 (analyze_page_short_circuit_issue (P:=parser) page_404)).
    vm_compute. discriminate.
  - apply (proj2 (analyze_page_short_circuit_issue (P:=parser) page_empty_200));
      reflexivity.
Defined.

(** C4, as stated, fails: the record the crawler builds for a 404
    response with a body takes the short-circuit branch and keeps its
    page size and link count. *)
Lemma short_circuit_counts_not_all_zero :
  page_status page_404 ≠ 200 ∧
  page_body page_404 ≠ "" ∧
  PageAnalysis.internal_links (analyze_page (P:=parser) page_404) = 1 ∧
  PageAnalysis.page_size_kb (analyze_page (P:=parser) page_404) = Qmake 6 100 ∧
  ¬ all_counts_zero (analyze_page (P:=parser) page_404).
Proof.
  split_and!; try (vm_compute; (reflexivity || discriminate)).
  intros (_ & _ & _ & _ & Hlinks & _). vm_compute in Hlinks. discriminate.
Qed.

Lemma analyze_page_short_circuit_fields_witness :
  PageAnalysis.title_length (analyze_page (P:=parser) page_404) = 0 ∧
  PageAnalysis.status_code (analyze_page (P:=parser) page_404) = 404 ∧
  PageAnalysis.internal_links (analyze_page (P:=parser) page_404) = 1.
Proof.
  destruct (analyze_page_short_circuit_fields (P:=parser) page_404)
    as (Ht & _ & _ & _ & _ & Hs & _ & Hl).
  - right. vm_compute. discriminate.
  - split_and!; [exact Ht|exact Hs|exact Hl].
Defined.

(** C5, as stated, fails: a record with status 404 and a body does not
    get [HTTP_404]. *)
Lemma http_status_issue_not_reported :
  page_status page_404 = 404 ∧
  page_body page_404 ≠ "" ∧
  "HTTP_" +:+ Py.format_int (page_status page_404) = "HTTP_404" ∧
  "HTTP_404" ∉ PageAnalysis.issues (analyze_page (P:=parser) page_404).
Proof.
  split_and!; try (vm_compute; (reflexivity || discriminate)).
  intros Hin. vm_compute in Hin.
  apply list_elem_of_singleton in Hin. discriminate.
Qed.

Lemma http_status_issue_only_from_detect_issues_witness :
  PageAnalysis.issues (analyze_page (P:=parser) page_404) = ["PAGE_NOT_ACCESSIBLE"] ∧
  last (_detect_issues 4 0 2 false false 404) = Some "HTTP_404".
Proof.
  destruct (http_status_issue_only_from_detect_issues (P:=parser)) as (Ha & _ & Hd).
  split.
  - apply Ha. vm_compute. discriminate.
  - apply (Hd 4 0 2 false false 404). discriminate.
Defined.

(** C8, as stated, fails: the page of the scenario gets
    [TITLE_TOO_SHORT], not [MISSING_TITLE]. *)
Lemma home_scenario_title_not_missing :
  let soup := BeautifulSoup (HtmlParser:=parser) (page_body page_home) in
  page_status page_home = 200 ∧
  _extract_title soup = "Home" ∧
  PageAnalysis.title_length (analyze_page (P:=parser) page_home) = 4 ∧
  _extract_meta_description soup = "" ∧
  length (Bs4.find_all soup (Bs4.named "h1")) = 2%nat ∧
  Bs4.find soup (λ t, Bs4.named "link" t && Bs4.multi_attr_is "rel" "canonical" t) = None ∧
  Bs4.find soup (λ t, Bs4.named "meta" t && Bs4.attr_is "name" "robots" t) = None ∧
  PageAnalysis.issues (analyze_page (P:=parser) page_home)
  ≠ ["MISSING_TITLE"; "MISSING_META_DESCRIPTION"; "MULTIPLE_H1_TAGS";
     "MISSING_CANONICAL"].
Proof.
  split_and!; try (vm_compute; reflexivity).
  vm_compute. discriminate.
Qed.

Lemma analyze_page_home_scenario_witness :
  PageAnalysis.issues (analyze_page (P:=parser) page_home)
  = ["TITLE_TOO_SHORT"; "MISSING_META_DESCRIPTION"; "MULTIPLE_H1_TAGS";
     "MISSING_CANONICAL"].
Proof.
  apply (analyze_page_home_scenario (P:=parser) page_home);
    try (vm_compute; reflexivity).
  vm_compute. discriminate.
Defined.

Lemma store_unknown_id_noop_witness :
  let audits := create_audit "2024-01-01T00:00:00" "a1" "https://example.com" ∅ in
  update_status "2024-01-01T00:00:05" "b2" "crawling" audits = audits ∧
  get_audit "b2" audits = None.
Proof.
  intros audits.
  destruct (store_unknown_id_noop audits "2024-01-01T00:00:05" "b2" "crawling" "boom"
              {| AuditResults.url := "https://example.com";
                 AuditResults.pages_crawled := 0;
                 AuditResults.summary := calculate_summary [];
                 AuditResults.pages := [];
                 AuditResults.completed_at := "2024-01-01T00:00:05" |})
    as (Hu & _ & _ & Hg).
  - vm_compute. reflexivity.
  - split; [exact Hu|exact Hg].
Defined.

Lemma crawl_navigation_isolates_failure_witness :
  ∃ pages,
    crawl_navigation (P:=parser) (U:=urllib) (N:=net_one_timeout) start_url = Ok pages ∧
    length (filter (λ page, PageData.url page = Some "https://example.com/contact")
                   pages) = 1%nat ∧
    _crawl_page (P:=parser) (U:=urllib) (@crawl_client net_one_timeout)
                "https://example.com/about" "https://example.com" ∈ pages ∧
    ∃ pages',
      crawl_navigation (P:=parser) (U:=urllib) (N:=net_all_up) start_url = Ok pages' ∧
      filter (λ page, PageData.url page ≠ Some "https://example.com/contact") pages'
      = filter (λ page, PageData.url page ≠ Some "https://example.com/contact") pages.
Proof.
  destruct (crawl_navigation_isolates_failure (P:=parser) (U:=urllib)
              net_one_timeout start_url
              {| scheme := "https"; netloc := "example.com" |}
              nav_html
              ({["https://example.com/contact"]} ∪ ({["https://example.com/about"]} ∪ ∅))
              "https://example.com/contact" "ReadTimeout")
    as (pages & Hrun & Honce & _ & Hall & Hothers).
  - reflexivity.
  - reflexivity.
  - discriminate.
  - vm_compute. reflexivity.
  - apply elem_of_union_r, elem_of_union_l, elem_of_singleton. reflexivity.
  - reflexivity.
  - exists pages. split_and!; [exact Hrun|exact Honce| |].
    + apply (Hall "https://example.com/about").
      apply elem_of_union_r, elem_of_union_r, elem_of_union_l, elem_of_singleton.
      reflexivity.
    + apply (Hothers net_all_up); [reflexivity|].
      intros v Hv. unfold net_all_up, crawl_client at 1.
      destruct (String.eqb_spec v "https://example.com/contact"); [contradiction|].
      reflexivity.
Defined.

(** C3, as stated, fails: a homepage answering 404 with a body is no
    transport failure, yet its status code and body are dropped and the
    crawl returns the empty sequence. *)
Lemma homepage_404_returns_empty :
  @fetch_client net_home_404 start_url = Ok (response 404 not_found_html) ∧
  Response.status_code (response 404 not_found_html) ≠ 0 ∧
  Response.text (response 404 not_found_html) ≠ "" ∧
  _fetch_page (N:=net_home_404) start_url = None ∧
  crawl_navigation (P:=parser) (U:=urllib) (N:=net_home_404) start_url = Ok [].
Proof.
  split_and!; try reflexivity; vm_compute; discriminate.
Qed.

Lemma crawl_navigation_empty_iff_witness :
  crawl_navigation (P:=parser) (U:=urllib) (N:=net_home_404) start_url = Ok [] ∧
  _fetch_page (N:=net_home_404) start_url = None.
Proof.
  destruct (crawl_navigation_empty_iff (P:=parser) (U:=urllib) net_home_404 start_url)
    as (Hiff & Hnot200 & _).
  split.
  - apply Hiff. split.
    + eexists. reflexivity.
    + intros (r & Hget & Hs & _). injection Hget as <-. discriminate.
  - apply (Hnot200 (response 404 not_found_html)); [reflexivity|].
    vm_compute. discriminate.
Defined.

(** C6 on a page whose only navigation marker is an [id]: the [div]
    carries [id='main-nav'], which passes the strategy-3 test, and holds
    the link [/about]; but the test is applied to [class] only, so no
    element is selected and the extractor returns the empty set. *)
Theorem id_marker_container_not_searched :
  BeautifulSoup (HtmlParser:=parser) id_nav_html = id_nav_soup ∧
  Bs4.find_all id_nav_soup (Bs4.named "nav") = [] ∧
  Bs4.find_all id_nav_soup (Bs4.named "header") = [] ∧
  id_nav_div ∈ Bs4.find_all id_nav_soup (Bs4.named_in ["div"; "ul"]) ∧
  nav_class (Bs4.get id_nav_div "id") = true ∧
  Bs4.get id_nav_div "class" = None ∧
  href_of <$> anchors id_nav_div = ["/about"] ∧
  nav_elements_of id_nav_soup = [] ∧
  ∀ (U : UrlLib) (base : string),
    _extract_navigation_links (P:=parser) (U:=U) id_nav_html base = Ok ∅.
Proof.
  split_and!; try (vm_compute; reflexivity).
  vm_compute. constructor.
Qed.

Lemma foreign_links_excluded_witness :
  (∃ link a,
     link ∈ candidate_links nav_soup ∧
     ex_urljoin "https://example.com" (href_of link) = Ok a ∧
     "https://example.com/about" = Py.split_first "#" a) ∧
  same_host (U:=urllib) "https://example.com/about" "https://example.com" ∧
  PageData.internal_links
    (_crawl_page (P:=parser) (U:=urllib) (@crawl_client net_one_timeout)
                 "https://example.com/about" "https://example.com") = Some 1 ∧
  internal_link_b (U:=urllib) "https://example.com/about" "https://example.com"
    (el "a" [("href", "https://other.org/")] [Bs4.NavigableString "Partner"]) = false.
Proof.
  destruct (foreign_links_excluded (P:=parser) (U:=urllib))
    as (Hset & Hhosts & Hcount & _ & _ & Hforeign).
  split_and!.
  - destruct (Hset nav_html "https://example.com"
                ({["https://example.com/contact"]} ∪ ({["https://example.com/about"]} ∪ ∅))
                "https://example.com/about")
      as (link & a & Hl & Hj & _ & _ & Hu).
    + vm_compute. reflexivity.
    + apply elem_of_union_r, elem_of_union_l, elem_of_singleton. reflexivity.
    + exists link, a. split_and!; [exact Hl|exact Hj|exact Hu].
  - apply (Hhosts nav_html "https://example.com"
             ({["https://example.com/contact"]} ∪ ({["https://example.com/about"]} ∪ ∅))).
    + vm_compute. reflexivity.
    + intros link a Hl Hj _. vm_compute in Hl.
      apply elem_of_cons in Hl as [->|Hl];
        [|apply list_elem_of_singleton in Hl as ->];
        vm_compute in Hj; injection Hj as <-;
        (eexists _, _; split_and!; reflexivity).
    + apply elem_of_union_r, elem_of_union_l, elem_of_singleton. reflexivity.
  - destruct (Hcount (@crawl_client net_one_timeout)
                "https://example.com/about" "https://example.com"
                (_crawl_page (P:=parser) (U:=urllib) (@crawl_client net_one_timeout)
                   "https://example.com/about" "https://example.com"))
      as (r & Hget & _ & Hn).
    + vm_compute. reflexivity.
    + injection Hget as <-. rewrite Hn. vm_compute. reflexivity.
  - apply (Hforeign _ _ _ "https://other.org/"); [reflexivity|].
    exists {| scheme := "https"; netloc := "other.org" |},
           {| scheme := "https"; netloc := "example.com" |}.
    split_and!; [reflexivity|reflexivity|discriminate].
Defined.

End Instances.

(** * More on the rule engine *)

Section IssueRules.
Import SEOAnalyzer.

(** An [if]/[elif] chain of appends adds what the chain selects. *)
Lemma append_chain3 (l : list string) (a b c : bool) x y z :
  (if a then l ++ [x] else if b then l ++ [y] else if c then l ++ [z] else l)
  = l ++ (if a then [x] else if b then [y] else if c then [z] else []).
Proof. destruct a, b, c; rewrite ?app_nil_r; reflexivity. Qed.

Lemma append_chain2 (l : list string) (a b : bool) x y :
  (if a then l ++ [x] else if b then l ++ [y] else l)
  = l ++ (if a then [x] else if b then [y] else []).
Proof. destruct a, b; rewrite ?app_nil_r; reflexivity. Qed.

Lemma append_chain1 (l : list string) (a : bool) x :
  (if a then l ++ [x] else l) = l ++ (if a then [x] else []).
Proof. destruct a; rewrite ?app_nil_r; reflexivity. Qed.

(** The list [_detect_issues] builds is the concatenation, in check
    order, of what each rule contributes. *)
Lemma detect_issues_rules tl ml h c n st :
  _detect_issues tl ml h c n st
  = title_issue tl ++ meta_issue ml ++ h1_issue h ++ canonical_issue c
    ++ noindex_issue n ++ status_issue st.
Proof.
  unfold _detect_issues. cbv zeta.
  rewrite (append_chain1 _ (negb (st =? 200))), (append_chain1 _ n),
    (append_chain1 _ (negb c)), append_chain2, append_chain3, append_chain3.
  unfold title_issue, meta_issue, h1_issue, canonical_issue, noindex_issue, status_issue.
  rewrite <- !app_assoc. simpl.
  destruct c, (st =? 200); reflexivity.
Qed.

Lemma title_issue_elem x tl :
  x ∈ title_issue tl
  ↔ (x = "MISSING_TITLE" ∧ tl = 0)
    ∨ (x = "TITLE_TOO_SHORT" ∧ tl ≠ 0 ∧ tl < 30)
    ∨ (x = "TITLE_TOO_LONG" ∧ 60 < tl).
Proof.
  unfold title_issue, MIN_TITLE_LENGTH, MAX_TITLE_LENGTH.
  destruct (Z.eqb_spec tl 0), (Z.ltb_spec tl 30), (Z.gtb_spec tl 60);
    rewrite ?list_elem_of_singleton, ?elem_of_nil; intuition lia.
Qed.

Lemma meta_issue_elem x ml :
  x ∈ meta_issue ml
  ↔ (x = "MISSING_META_DESCRIPTION" ∧ ml = 0)
    ∨ (x = "META_DESCRIPTION_TOO_SHORT" ∧ ml ≠ 0 ∧ ml < 120)
    ∨ (x = "META_DESCRIPTION_TOO_LONG" ∧ 160 < ml).
Proof.
  unfold meta_issue, MIN_META_DESC_LENGTH, MAX_META_DESC_LENGTH.
  destruct (Z.eqb_spec ml 0), (Z.ltb_spec ml 120), (Z.gtb_spec ml 160);
    rewrite ?list_elem_of_singleton, ?elem_of_nil; intuition lia.
Qed.

Lemma h1_issue_elem x h :
  x ∈ h1_issue h
  ↔ (x = "MISSING_H1" ∧ h = 0) ∨ (x = "MULTIPLE_H1_TAGS" ∧ 1 < h).
Proof.
  unfold h1_issue.
  destruct (Z.eqb_spec h 0), (Z.gtb_spec h 1);
    rewrite ?list_elem_of_singleton, ?elem_of_nil; intuition lia.
Qed.

Lemma flag_issue_elem x c n st :
  (x ∈ canonical_issue c ↔ x = "MISSING_CANONICAL" ∧ c = false) ∧
  (x ∈ noindex_issue n ↔ x = "NOINDEX_PRESENT" ∧ n = true) ∧
  (x ∈ status_issue st ↔ x = "HTTP_" +:+ Py.format_int st ∧ st ≠ 200).
Proof.
  unfold canonical_issue, noindex_issue, status_issue.
  destruct c, n, (Z.eqb_spec st 200);
    rewrite ?list_elem_of_singleton, ?elem_of_nil; intuition congruence.
Qed.

(** A code of the status rule is none of the fixed codes. *)
Lemma http_code_fresh x s : x ∈ fixed_codes → x ≠ "HTTP_" +:+ s.
Proof.
  unfold fixed_codes. intros Hin ->.
  repeat (apply elem_of_cons in Hin as [Heq | Hin]; [cbv in Heq; congruence|]).
  inversion Hin.
Qed.

Lemma detect_issues_member x tl ml h c n st :
  x ∈ _detect_issues tl ml h c n st
  ↔ (x = "MISSING_TITLE" ∧ tl = 0)
    ∨ (x = "TITLE_TOO_SHORT" ∧ tl ≠ 0 ∧ tl < 30)
    ∨ (x = "TITLE_TOO_LONG" ∧ 60 < tl)
    ∨ (x = "MISSING_META_DESCRIPTION" ∧ ml = 0)
    ∨ (x = "META_DESCRIPTION_TOO_SHORT" ∧ ml ≠ 0 ∧ ml < 120)
    ∨ (x = "META_DESCRIPTION_TOO_LONG" ∧ 160 < ml)
    ∨ (x = "MISSING_H1" ∧ h = 0)
    ∨ (x = "MULTIPLE_H1_TAGS" ∧ 1 < h)
    ∨ (x = "MISSING_CANONICAL" ∧ c = false)
    ∨ (x = "NOINDEX_PRESENT" ∧ n = true)
    ∨ (x = "HTTP_" +:+ Py.format_int st ∧ st ≠ 200).
Proof.
  rewrite detect_issues_rules, !elem_of_app, title_issue_elem, meta_issue_elem,
    h1_issue_elem.
  destruct (flag_issue_elem x c n st) as (-> & -> & ->). tauto.
Qed.

Lemma check_order_NoDup st : NoDup (check_order st).
Proof.
  unfold check_order. apply NoDup_app. split_and!.
  - unfold fixed_codes. apply (bool_decide_unpack _). vm_compute. reflexivity.
  - intros x Hx Hs%list_elem_of_singleton. by apply (http_code_fresh x (Py.format_int st) Hx).
  - apply NoDup_singleton.
Qed.

Lemma detect_issues_sublist tl ml h c n st :
  sublist (_detect_issues tl ml h c n st) (check_order st).
Proof.
  rewrite detect_issues_rules. unfold check_order, fixed_codes.
  change ["MISSING_TITLE"; "TITLE_TOO_SHORT"; "TITLE_TOO_LONG";
          "MISSING_META_DESCRIPTION"; "META_DESCRIPTION_TOO_SHORT";
          "META_DESCRIPTION_TOO_LONG"; "MISSING_H1"; "MULTIPLE_H1_TAGS";
          "MISSING_CANONICAL"; "NOINDEX_PRESENT"]
    with (["MISSING_TITLE"; "TITLE_TOO_SHORT"; "TITLE_TOO_LONG"]
          ++ ["MISSING_META_DESCRIPTION"; "META_DESCRIPTION_TOO_SHORT";
              "META_DESCRIPTION_TOO_LONG"]
          ++ ["MISSING_H1"; "MULTIPLE_H1_TAGS"]
          ++ ["MISSING_CANONICAL"] ++ ["NOINDEX_PRESENT"]).
  rewrite <- !app_assoc.
  repeat apply sublist_app.
  - unfold title_issue. repeat case_match; repeat constructor.
  - unfold meta_issue. repeat case_match; repeat constructor.
  - unfold h1_issue. repeat case_match; repeat constructor.
  - unfold canonical_issue. repeat case_match; repeat constructor.
  - unfold noindex_issue. repeat case_match; repeat constructor.
  - unfold status_issue. repeat case_match; repeat constructor.
Qed.

Lemma detect_issues_NoDup tl ml h c n st :
  NoDup (_detect_issues tl ml h c n st) ∧
  (length (_detect_issues tl ml h c n st) ≤ 6)%nat ∧
  (st = 200 → (length (_detect_issues tl ml h c n st) ≤ 5)%nat).
Proof.
  split_and!.
  - apply (sublist_NoDup _ (check_order st));
      [apply check_order_NoDup|apply detect_issues_sublist].
  - rewrite detect_issues_rules, !length_app.
    unfold title_issue, meta_issue, h1_issue, canonical_issue, noindex_issue, status_issue.
    repeat case_match; simpl; lia.
  - intros ->. rewrite detect_issues_rules, !length_app.
    unfold title_issue, meta_issue, h1_issue, canonical_issue, noindex_issue, status_issue.
    repeat case_match; simpl; lia.
Qed.


(** X1. [_detect_issues] reports a code exactly when its rule fires:
    [MISSING_TITLE] for length 0, [TITLE_TOO_SHORT] for another length
    below 30, [TITLE_TOO_LONG] above 60; the same for the meta description
    with 120 and 160; [MISSING_H1] for no [h1], [MULTIPLE_H1_TAGS] for more
    than one; [MISSING_CANONICAL], [NOINDEX_PRESENT] and [HTTP_<status>] by
    their flags. The boundary lengths 30, 60, 120, 160 and a single [h1]
    report nothing. *)
Theorem detect_issues_reports x title_length meta_desc_length h1_count
    canonical_present noindex status_code :
  x ∈ _detect_issues title_length meta_desc_length h1_count
                     canonical_present noindex status_code
  ↔ (x = "MISSING_TITLE" ∧ title_length = 0)
    ∨ (x = "TITLE_TOO_SHORT" ∧ title_length ≠ 0 ∧ title_length < 30)
    ∨ (x = "TITLE_TOO_LONG" ∧ 60 < title_length)
    ∨ (x = "MISSING_META_DESCRIPTION" ∧ meta_desc_length = 0)
    ∨ (x = "META_DESCRIPTION_TOO_SHORT" ∧ meta_desc_length ≠ 0 ∧ meta_desc_length < 120)
    ∨ (x = "META_DESCRIPTION_TOO_LONG" ∧ 160 < meta_desc_length)
    ∨ (x = "MISSING_H1" ∧ h1_count = 0)
    ∨ (x = "MULTIPLE_H1_TAGS" ∧ 1 < h1_count)
    ∨ (x = "MISSING_CANONICAL" ∧ canonical_present = false)
    ∨ (x = "NOINDEX_PRESENT" ∧ noindex = true)
    ∨ (x = "HTTP_" +:+ Py.format_int status_code ∧ status_code ≠ 200).
Proof. apply detect_issues_member. Qed.

(** X2. The list [_detect_issues] returns follows the fixed check order
    (title, meta description, H1, canonical, noindex, status): it is a
    sublist of that order, so it has no duplicates, and it has at most six
    entries. *)
Theorem detect_issues_in_check_order title_length meta_desc_length h1_count
    canonical_present noindex status_code :
  let issues := _detect_issues title_length meta_desc_length h1_count
                               canonical_present noindex status_code in
  sublist issues (check_order status_code) ∧
  NoDup issues ∧
  (length issues ≤ 6)%nat.
Proof.
  intros issues. subst issues. split_and!.
  - apply detect_issues_sublist.
  - apply detect_issues_NoDup.
  - apply detect_issues_NoDup.
Qed.

End IssueRules.

Ltac fixed_code :=
  match goal with
  | |- ?x ≠ "HTTP_" +:+ _ => apply http_code_fresh; unfold fixed_codes; repeat constructor
  end.

Section AnalysisShape.
Context {P : HtmlParser}.
Import SEOAnalyzer.

(** The two branches of [analyze_page]. *)
Lemma analyze_page_cases page_data :
  ((page_body page_data = "" ∨ page_status page_data ≠ 200) ∧
   PageAnalysis.extracted (analyze_page page_data) = None ∧
   PageAnalysis.issues (analyze_page page_data)
   = [if negb (page_status page_data =? 200) then "PAGE_NOT_ACCESSIBLE"
      else "NO_HTML_CONTENT"])
  ∨ (page_body page_data ≠ "" ∧ page_status page_data = 200 ∧
     ∃ ex, PageAnalysis.extracted (analyze_page page_data) = Some ex ∧
       PageAnalysis.title_length (analyze_page page_data) = Py.len (PageAnalysis.title ex) ∧
       PageAnalysis.meta_description_length (analyze_page page_data)
       = Py.len (PageAnalysis.meta_description ex) ∧
       PageAnalysis.h1_count (analyze_page page_data)
       = Z.of_nat (length (PageAnalysis.h1_tags ex)) ∧
       PageAnalysis.canonical_present (analyze_page page_data)
       = bool_decide (Bs4.find (BeautifulSoup (page_body page_data))
                        (λ t, Bs4.named "link" t && Bs4.multi_attr_is "rel" "canonical" t)
                      ≠ None) ∧
       (is_Some (PageAnalysis.canonical_url ex) →
        PageAnalysis.canonical_present (analyze_page page_data) = true) ∧
       PageAnalysis.issues (analyze_page page_data)
       = _detect_issues (PageAnalysis.title_length (analyze_page page_data))
           (PageAnalysis.meta_description_length (analyze_page page_data))
           (PageAnalysis.h1_count (analyze_page page_data))
           (PageAnalysis.canonical_present (analyze_page page_data))
           (PageAnalysis.noindex (analyze_page page_data)) 200).
Proof.
  unfold analyze_page. fold (page_status page_data) (page_body page_data).
  destruct (negb (Py.truthy (page_body page_data))
            || negb (page_status page_data =? 200)) eqn:Hg.
  - left. apply short_circuit_guard in Hg. split; [assumption|].
    split; [reflexivity|]. simpl. by destruct (negb (page_status page_data =? 200)).
  - right. apply orb_false_iff in Hg as [Hb Hs].
    apply negb_false_iff in Hb, Hs. apply truthy_true in Hb. apply Z.eqb_eq in Hs.
    split_and!; [assumption..|]. eexists. split; [reflexivity|]. simpl.
    split_and!.
    + unfold Py.truthy. by destruct (_extract_title _).
    + unfold Py.truthy. by destruct (_extract_meta_description _).
    + by rewrite length_fmap.
    + reflexivity.
    + destruct (Bs4.find _ _) as [t|]; [intros _; by apply bool_decide_eq_true|].
      intros [? [=]].
    + by rewrite Hs.
Qed.

Lemma analyze_page_short_circuit_fields_aux page_data :
  page_body page_data = "" ∨ page_status page_data ≠ 200 →
  PageAnalysis.title_length (analyze_page page_data) = 0 ∧
  PageAnalysis.meta_description_length (analyze_page page_data) = 0 ∧
  PageAnalysis.h1_count (analyze_page page_data) = 0.
Proof.
  intros Hg%short_circuit_guard. unfold analyze_page.
  fold (page_status page_data) (page_body page_data). rewrite Hg. auto.
Qed.

Lemma len_nonneg s : 0 ≤ Py.len s.
Proof. unfold Py.len. lia. Qed.

(** X3. In the issues [analyze_page] returns, [PAGE_NOT_ACCESSIBLE] is
    there exactly when the status code is not 200 and [NO_HTML_CONTENT]
    exactly when it is 200 and the body is empty; the list never repeats a
    code and has at most five. *)
Theorem analyze_page_issue_kinds page_data :
  let issues := PageAnalysis.issues (analyze_page page_data) in
  ("PAGE_NOT_ACCESSIBLE" ∈ issues ↔ page_status page_data ≠ 200) ∧
  ("NO_HTML_CONTENT" ∈ issues
   ↔ page_status page_data = 200 ∧ page_body page_data = "") ∧
  NoDup issues ∧
  (length issues ≤ 5)%nat.
Proof.
  intros issues. subst issues.
  destruct (analyze_page_cases page_data)
    as [(Hg & _ & ->)|(Hb & Hs & ex & _ & _ & _ & _ & _ & _ & ->)].
  - destruct (Z.eqb_spec (page_status page_data) 200) as [Hs|Hs]; simpl.
    + split_and!; [|rewrite list_elem_of_singleton; intuition congruence
                  |apply NoDup_singleton|lia].
      rewrite list_elem_of_singleton. split; [discriminate|congruence].
    + split_and!; [rewrite list_elem_of_singleton; tauto| |apply NoDup_singleton|lia].
      rewrite list_elem_of_singleton. split; [discriminate|tauto].
  - split_and!.
    + split; [|congruence]. intros Hin.
      apply (proj1 (Forall_forall _ _) (detect_issues_200_fixed _ _ _ _ _)) in Hin.
      unfold fixed_codes in Hin.
      repeat (apply elem_of_cons in Hin as [Heq | Hin]; [discriminate|]). inversion Hin.
    + split; [|tauto]. intros Hin.
      apply (proj1 (Forall_forall _ _) (detect_issues_200_fixed _ _ _ _ _)) in Hin.
      unfold fixed_codes in Hin.
      repeat (apply elem_of_cons in Hin as [Heq | Hin]; [discriminate|]). inversion Hin.
    + apply detect_issues_NoDup.
    + by apply detect_issues_NoDup.
Qed.

(** X4. Every analysis carries the record's URL, status code, page size
    and link count; its three counts are never negative; the extracted
    part is missing exactly on the short-circuit branch; and when it is
    there, [title_length], [meta_description_length] and [h1_count] are the
    lengths of the extracted title, description and [h1] list, and a
    canonical URL is only reported with [canonical_present]. *)
Theorem analyze_page_consistent page_data :
  let a := analyze_page page_data in
  PageAnalysis.url a = default "" (PageData.url page_data) ∧
  PageAnalysis.status_code a = page_status page_data ∧
  PageAnalysis.page_size_kb a = default 0%Q (PageData.page_size_kb page_data) ∧
  PageAnalysis.internal_links a = default 0 (PageData.internal_links page_data) ∧
  0 ≤ PageAnalysis.title_length a ∧
  0 ≤ PageAnalysis.meta_description_length a ∧
  0 ≤ PageAnalysis.h1_count a ∧
  (PageAnalysis.extracted a = None
   ↔ page_body page_data = "" ∨ page_status page_data ≠ 200) ∧
  (∀ ex, PageAnalysis.extracted a = Some ex →
     PageAnalysis.title_length a = Py.len (PageAnalysis.title ex) ∧
     PageAnalysis.meta_description_length a = Py.len (PageAnalysis.meta_description ex) ∧
     PageAnalysis.h1_count a = Z.of_nat (length (PageAnalysis.h1_tags ex)) ∧
     (is_Some (PageAnalysis.canonical_url ex) → PageAnalysis.canonical_present a = true)).
Proof.
  intros a. subst a.
  assert (Hpass :
    PageAnalysis.url (analyze_page page_data) = default "" (PageData.url page_data) ∧
    PageAnalysis.status_code (analyze_page page_data) = page_status page_data ∧
    PageAnalysis.page_size_kb (analyze_page page_data)
    = default 0%Q (PageData.page_size_kb page_data) ∧
    PageAnalysis.internal_links (analyze_page page_data)
    = default 0 (PageData.internal_links page_data)).
  { unfold analyze_page. fold (page_status page_data) (page_body page_data).
    destruct (negb (Py.truthy (page_body page_data)) || _); simpl; auto. }
  destruct Hpass as (Hu & Hst & Hsz & Hl).
  do 4 (split; [assumption|]).
  destruct (analyze_page_cases page_data)
    as [(Hg & Hex & _)|(Hb & Hs & ex & Hex & Ht & Hm & Hh & _ & Hc & _)].
  - pose proof (analyze_page_short_circuit_fields_aux page_data Hg) as (Ht & Hm & Hh).
    rewrite Ht, Hm, Hh, Hex. split_and!; try lia; [tauto|discriminate].
  - rewrite Ht, Hm, Hh, Hex. split_and!; try apply len_nonneg; try lia.
    + split; [discriminate|]. intros [?|?]; congruence.
    + intros ex' [= <-]. auto.
Qed.


Lemma get_text_strip_blank t :
  Forall (λ s, Py.strip s = "") (Bs4.strings t) → Bs4.get_text_strip t = "".
Proof.
  unfold Bs4.get_text_strip. induction 1 as [|s l Hs _ IH]; [reflexivity|].
  csimpl. rewrite Hs. simpl. exact IH.
Qed.

(** X6. On the full path a page without a [title] element, or whose
    [title] holds white space only, counts as having no title: its
    [title_length] is 0 and it gets [MISSING_TITLE], not
    [TITLE_TOO_SHORT]. *)
Theorem blank_title_is_missing page_data :
  page_status page_data = 200 →
  page_body page_data ≠ "" →
  match Bs4.find (BeautifulSoup (page_body page_data)) (Bs4.named "title") with
  | Some title_tag => Forall (λ s, Py.strip s = "") (Bs4.strings title_tag)
  | None => True
  end →
  PageAnalysis.title_length (analyze_page page_data) = 0 ∧
  "MISSING_TITLE" ∈ PageAnalysis.issues (analyze_page page_data) ∧
  "TITLE_TOO_SHORT" ∉ PageAnalysis.issues (analyze_page page_data).
Proof.
  intros Hs Hb Ht.
  assert (Htitle : _extract_title (BeautifulSoup (page_body page_data)) = "").
  { unfold _extract_title. destruct (Bs4.find _ _); [by apply get_text_strip_blank|done]. }
  unfold analyze_page. fold (page_status page_data) (page_body page_data).
  apply truthy_true in Hb. rewrite Hs, Hb. simpl. rewrite Htitle. simpl.
  split; [reflexivity|]. rewrite !detect_issues_member. split.
  - left. auto.
  - assert ("TITLE_TOO_SHORT" ≠ "HTTP_" +:+ Py.format_int 200) by fixed_code.
    intros Hc. decompose [or and] Hc; try discriminate; congruence.
Qed.

End AnalysisShape.

(** * More on the summary *)

Section SummaryCounts.

Lemma summary_step_counts s page :
  let s' := summary_step s page in
  Summary.missing_title s'
  = Summary.missing_title s
    + (if decide (PageAnalysis.title_length page = 0) then 1 else 0) ∧
  Summary.missing_meta_description s'
  = Summary.missing_meta_description s
    + (if decide (PageAnalysis.meta_description_length page = 0) then 1 else 0) ∧
  Summary.multiple_h1 s'
  = Summary.multiple_h1 s + (if decide (1 < PageAnalysis.h1_count page) then 1 else 0) ∧
  Summary.noindex_pages s'
  = Summary.noindex_pages s
    + (if decide (PageAnalysis.noindex page = true) then 1 else 0) ∧
  Summary.non_200_pages s'
  = Summary.non_200_pages s
    + (if decide (PageAnalysis.status_code page ≠ 200) then 1 else 0).
Proof.
  unfold summary_step.
  destruct (Z.eqb_spec (PageAnalysis.status_code page) 200),
    (Z.eqb_spec (PageAnalysis.title_length page) 0),
    (Z.eqb_spec (PageAnalysis.meta_description_length page) 0),
    (Z.gtb_spec (PageAnalysis.h1_count page) 1),
    (PageAnalysis.noindex page); simpl;
    repeat case_decide; try lia; try congruence; simpl; lia.
Qed.

Lemma summary_fold_counts results : ∀ s,
  let s' := fold_left summary_step results s in
  Summary.missing_title s'
  = Summary.missing_title s
    + Z.of_nat (length (filter (λ page, PageAnalysis.title_length page = 0) results)) ∧
  Summary.missing_meta_description s'
  = Summary.missing_meta_description s
    + Z.of_nat (length (filter (λ page, PageAnalysis.meta_description_length page = 0)
                               results)) ∧
  Summary.multiple_h1 s'
  = Summary.multiple_h1 s
    + Z.of_nat (length (filter (λ page, 1 < PageAnalysis.h1_count page) results)) ∧
  Summary.noindex_pages s'
  = Summary.noindex_pages s
    + Z.of_nat (length (filter (λ page, PageAnalysis.noindex page = true) results)) ∧
  Summary.non_200_pages s'
  = Summary.non_200_pages s
    + Z.of_nat (length (filter (λ page, PageAnalysis.status_code page ≠ 200) results)).
Proof.
  induction results as [|page results IH]; intros s.
  - simpl. rewrite !Z.add_0_r. auto.
  - cbn [fold_left]. specialize (IH (summary_step s page)).
    pose proof (summary_step_counts s page) as Hstep.
    cbv zeta in IH, Hstep. rewrite !filter_cons.
    destruct IH as (-> & -> & -> & -> & ->).
    destruct Hstep as (-> & -> & -> & -> & ->).
    repeat case_decide; cbn [length]; lia.
Qed.

(** X7. The four other counters of [calculate_summary] are exact
    counts too: analyses with [title_length] 0, with
    [meta_description_length] 0, with more than one [h1], and with
    [noindex] set. *)
Theorem calculate_summary_counts (results : list PageAnalysis.t) :
  let summary := calculate_summary results in
  Summary.missing_title summary
  = Z.of_nat (length (filter (λ page, PageAnalysis.title_length page = 0) results)) ∧
  Summary.missing_meta_description summary
  = Z.of_nat (length (filter (λ page, PageAnalysis.meta_description_length page = 0)
                             results)) ∧
  Summary.multiple_h1 summary
  = Z.of_nat (length (filter (λ page, 1 < PageAnalysis.h1_count page) results)) ∧
  Summary.noindex_pages summary
  = Z.of_nat (length (filter (λ page, PageAnalysis.noindex page = true) results)).
Proof.
  intros summary. subst summary. unfold calculate_summary.
  destruct (summary_fold_counts results
              {| Summary.missing_title := 0;
                 Summary.missing_meta_description := 0;
                 Summary.multiple_h1 := 0;
                 Summary.noindex_pages := 0;
                 Summary.non_200_pages := 0 |}) as (-> & -> & -> & -> & _).
  simpl. auto.
Qed.

Lemma summary_eq (s1 s2 : Summary.t) :
  Summary.missing_title s1 = Summary.missing_title s2 →
  Summary.missing_meta_description s1 = Summary.missing_meta_description s2 →
  Summary.multiple_h1 s1 = Summary.multiple_h1 s2 →
  Summary.noindex_pages s1 = Summary.noindex_pages s2 →
  Summary.non_200_pages s1 = Summary.non_200_pages s2 →
  s1 = s2.
Proof. destruct s1, s2. simpl. congruence. Qed.

(** X8. The summary does not depend on the order of the analyses:
    reordering them (the crawl enumerates a set) gives the same
    summary. *)
Theorem calculate_summary_permutation (results1 results2 : list PageAnalysis.t) :
  results1 ≡ₚ results2 → calculate_summary results1 = calculate_summary results2.
Proof.
  intros Hperm. unfold calculate_summary.
  set (s0 := {| Summary.missing_title := 0;
                Summary.missing_meta_description := 0;
                Summary.multiple_h1 := 0;
                Summary.noindex_pages := 0;
                Summary.non_200_pages := 0 |}).
  destruct (summary_fold_counts results1 s0) as (A1 & A2 & A3 & A4 & A5).
  destruct (summary_fold_counts results2 s0) as (B1 & B2 & B3 & B4 & B5).
  apply summary_eq;
    [rewrite A1, B1|rewrite A2, B2|rewrite A3, B3|rewrite A4, B4|rewrite A5, B5];
    by rewrite Hperm.
Qed.

End SummaryCounts.

Lemma filter_length_mono {A} (P Q : A → Prop) `{∀ x, Decision (P x)} `{∀ x, Decision (Q x)}
    (l : list A) :
  (∀ x, x ∈ l → P x → Q x) →
  (length (filter P l) ≤ length (filter Q l))%nat.
Proof.
  induction l as [|x l IH]; intros Himp; [reflexivity|].
  rewrite !filter_cons.
  assert (IH' : (length (filter P l) ≤ length (filter Q l))%nat)
    by (apply IH; intros y Hy; apply Himp; by constructor).
  destruct (decide (P x)) as [Hp|Hp], (decide (Q x)) as [Hq|Hq]; simpl; try lia.
  exfalso. apply Hq, Himp; [constructor|assumption].
Qed.

Lemma filter_length_disjoint {A} (P Q : A → Prop)
    `{∀ x, Decision (P x)} `{∀ x, Decision (Q x)} (l : list A) :
  (∀ x, x ∈ l → P x → Q x → False) →
  (length (filter P l) + length (filter Q l) ≤ length l)%nat.
Proof.
  induction l as [|x l IH]; intros Hdis; [reflexivity|].
  rewrite !filter_cons.
  assert (IH' : (length (filter P l) + length (filter Q l) ≤ length l)%nat)
    by (apply IH; intros y Hy; apply Hdis; by constructor).
  destruct (decide (P x)) as [Hp|Hp], (decide (Q x)) as [Hq|Hq]; simpl; try lia.
  exfalso. apply (Hdis x); [constructor|assumption..].
Qed.

Section SummaryOfAnalyses.
Context {P : HtmlParser}.
Import SEOAnalyzer.

(** An analysis with a status code other than 200 is a minimal one. *)
Lemma analysis_not_200 page_data :
  PageAnalysis.status_code (analyze_page page_data) ≠ 200 →
  PageAnalysis.title_length (analyze_page page_data) = 0 ∧
  PageAnalysis.meta_description_length (analyze_page page_data) = 0 ∧
  PageAnalysis.h1_count (analyze_page page_data) = 0 ∧
  PageAnalysis.noindex (analyze_page page_data) = false.
Proof.
  unfold analyze_page. fold (page_status page_data) (page_body page_data).
  destruct (negb (Py.truthy (page_body page_data))
            || negb (page_status page_data =? 200)) eqn:Hg; simpl; [auto|].
  apply orb_false_iff in Hg as [_ Hs]. apply negb_false_iff, Z.eqb_eq in Hs.
  congruence.
Qed.

(** X9. In the summary of analysed pages, every page with a status
    code other than 200 is also counted as missing its title and its meta
    description, and is never counted for multiple [h1] or noindex. *)
Theorem summary_counts_failed_pages (pages : list PageData.t) :
  let summary := calculate_summary (analyze_page <$> pages) in
  let n := Z.of_nat (length pages) in
  Summary.non_200_pages summary ≤ Summary.missing_title summary ∧
  Summary.non_200_pages summary ≤ Summary.missing_meta_description summary ∧
  Summary.non_200_pages summary + Summary.multiple_h1 summary ≤ n ∧
  Summary.non_200_pages summary + Summary.noindex_pages summary ≤ n.
Proof.
  intros summary n. subst summary n.
  unfold calculate_summary.
  destruct (summary_fold_counts (analyze_page <$> pages)
              {| Summary.missing_title := 0;
                 Summary.missing_meta_description := 0;
                 Summary.multiple_h1 := 0;
                 Summary.noindex_pages := 0;
                 Summary.non_200_pages := 0 |}) as (-> & -> & -> & -> & ->).
  cbn [Summary.missing_title Summary.missing_meta_description Summary.multiple_h1
       Summary.noindex_pages Summary.non_200_pages]. rewrite !Z.add_0_l.
  assert (Hfail : ∀ a, a ∈ analyze_page <$> pages →
            PageAnalysis.status_code a ≠ 200 →
            PageAnalysis.title_length a = 0 ∧
            PageAnalysis.meta_description_length a = 0 ∧
            PageAnalysis.h1_count a = 0 ∧
            PageAnalysis.noindex a = false).
  { intros a (pd & -> & _)%list_elem_of_fmap. apply analysis_not_200. }
  rewrite <- (length_fmap analyze_page pages).
  split_and!.
  - apply inj_le, filter_length_mono. intros a Ha Hs. by apply Hfail.
  - apply inj_le, filter_length_mono. intros a Ha Hs. by apply Hfail.
  - rewrite <- Nat2Z.inj_add. apply inj_le, filter_length_disjoint.
    intros a Ha Hs Hh. destruct (Hfail a Ha Hs) as (_ & _ & Hz & _). lia.
  - rewrite <- Nat2Z.inj_add. apply inj_le, filter_length_disjoint.
    intros a Ha Hs Hn. destruct (Hfail a Ha Hs) as (_ & _ & _ & Hz). congruence.
Qed.

End SummaryOfAnalyses.

(** * More on the crawler *)

Lemma split_first_no_sep sep s : Py.contains (String sep "") (Py.split_first sep s) = false.
Proof.
  induction s as [|c s IH]; [reflexivity|].
  simpl. destruct (Ascii.eqb_spec c sep) as [->|Hne]; [reflexivity|].
  cbn [Py.contains String.prefix]. rewrite IH.
  destruct (ascii_dec sep c) as [->|_]; [contradiction|reflexivity].
Qed.

(** Induction on a document tree, with the hypothesis for all children. *)
Lemma node_children_ind (Q : Bs4.node → Prop) :
  (∀ name attrs contents, Forall Q contents → Q (Bs4.Tag name attrs contents)) →
  (∀ s, Q (Bs4.NavigableString s)) →
  (∀ s, Q (Bs4.Comment s)) →
  ∀ n, Q n.
Proof.
  intros Htag Hstr Hcom. fix IH 1. intros [name attrs contents|s|s].
  - apply Htag. induction contents as [|c r IHr]; constructor; [apply IH|exact IHr].
  - apply Hstr.
  - apply Hcom.
Qed.

Lemma descendants_Tag name attrs contents :
  Bs4.descendants (Bs4.Tag name attrs contents)
  = contents ≫= (λ c, c :: Bs4.descendants c).
Proof.
  simpl. induction contents as [|c r IH]; [reflexivity|].
  csimpl. by rewrite IH.
Qed.

(** What lies below a node below [n] lies below [n]. *)
Lemma descendants_trans n : ∀ d x,
  d ∈ Bs4.descendants n → x ∈ Bs4.descendants d → x ∈ Bs4.descendants n.
Proof.
  induction n as [name attrs contents IH|s|s] using node_children_ind;
    intros d x Hd Hx; [|inversion Hd..].
  rewrite descendants_Tag in *.
  apply list_elem_of_bind in Hd as (c & Hd & Hc).
  apply list_elem_of_bind. exists c. split; [|assumption].
  apply elem_of_cons in Hd as [->|Hd]; [by right|].
  right. rewrite Forall_forall in IH. by apply (IH c Hc d x).
Qed.

Lemma find_all_descendant n p d : d ∈ Bs4.find_all n p → d ∈ Bs4.descendants n.
Proof.
  unfold Bs4.find_all. intros Hd%list_elem_of_In%filter_In.
  apply list_elem_of_In. tauto.
Qed.

Lemma find_descendant n p d : Bs4.find n p = Some d → d ∈ Bs4.descendants n.
Proof.
  unfold Bs4.find. intros Hd. apply (find_all_descendant n p).
  destruct (Bs4.find_all n p); [discriminate|]. injection Hd as ->. constructor.
Qed.

Section CrawlerMore.
Context {P : HtmlParser} {U : UrlLib}.
Import NavigationCrawler.

Lemma extract_navigation_links_clean html base links :
  _extract_navigation_links html base = Ok links →
  ∀ u, u ∈ links → u ≠ "" ∧ Py.contains "#" u = false.
Proof.
  unfold _extract_navigation_links. intros Hrun.
  set (I := λ s : gset string, ∀ u, u ∈ s → u ≠ "" ∧ Py.contains "#" u = false).
  change (I links).
  eapply (for_each_inv I); [|intros u Hu; by apply not_elem_of_empty in Hu|exact Hrun].
  intros nav_element s s' _ Hs Hinner.
  eapply (for_each_inv I); [|exact Hs|exact Hinner].
  clear s s' Hs Hinner. intros link s s' _ Hs Hbody. cbv beta zeta in Hbody.
  destruct (urljoin base (href_of link)) as [a|]; simpl in Hbody; [|discriminate].
  destruct (_is_same_domain a base) as [[]|]; simpl in Hbody; [| |discriminate].
  - destruct (Py.truthy (Py.split_first "#" a)) eqn:Ht; injection Hbody as <-; [|exact Hs].
    intros u [->%elem_of_singleton|Hu]%elem_of_union; [|by apply Hs].
    split; [by apply truthy_true|apply split_first_no_sep].
  - injection Hbody as <-. exact Hs.
Qed.

Lemma crawl_navigation_inv (N : Httpx) start pages :
  crawl_navigation start = Ok pages →
  pages = [] ∨
  ∃ p html links,
    urlparse start = Ok p ∧
    _fetch_page start = Some html ∧
    html ≠ "" ∧
    _extract_navigation_links html (base_domain_of p) = Ok links ∧
    pages = (λ url, _crawl_page crawl_client url (base_domain_of p))
              <$> elements ({[start]} ∪ links).
Proof.
  intros Hrun.
  destruct (urlparse start) as [p|] eqn:Hp; cycle 1.
  { unfold crawl_navigation in Hrun. rewrite Hp in Hrun. discriminate. }
  destruct (_fetch_page start) as [html|] eqn:Hf; cycle 1.
  { unfold crawl_navigation in Hrun. rewrite Hp in Hrun. simpl in Hrun.
    rewrite Hf in Hrun. injection Hrun as <-. by left. }
  destruct (Py.truthy html) eqn:Ht; cycle 1.
  { unfold crawl_navigation in Hrun. rewrite Hp in Hrun. simpl in Hrun.
    rewrite Hf, Ht in Hrun. injection Hrun as <-. by left. }
  apply truthy_true in Ht.
  destruct (_extract_navigation_links html (base_domain_of p)) as [links|e] eqn:He.
  - rewrite (crawl_navigation_proceeds N start p html links Hp Hf Ht He) in Hrun.
    injection Hrun as <-. right. exists p, html, links. auto.
  - unfold crawl_navigation in Hrun. rewrite Hp in Hrun. simpl in Hrun.
    apply truthy_true in Ht. rewrite Hf, Ht in Hrun. simpl in Hrun.
    fold (base_domain_of p) in Hrun. rewrite He in Hrun. discriminate.
Qed.

(** X10. The records [crawl_navigation] returns have pairwise different
    URLs; unless the sequence is empty, one of them is the start URL's; and
    every other URL is non-empty and has no fragment. *)
Theorem crawl_navigation_output_urls (N : Httpx) start pages :
  crawl_navigation start = Ok pages →
  NoDup (PageData.url <$> pages) ∧
  (pages = [] ∨ Some start ∈ PageData.url <$> pages) ∧
  (∀ page, page ∈ pages →
     ∃ u, PageData.url page = Some u ∧
          (u = start ∨ (u ≠ "" ∧ Py.contains "#" u = false))).
Proof.
  intros [->|(p & html & links & Hp & Hf & Hne & He & ->)]%crawl_navigation_inv.
  - split_and!; [constructor|by left|]. intros page Hin. inversion Hin.
  - assert (Hurls : PageData.url <$>
              ((λ url, _crawl_page crawl_client url (base_domain_of p))
                 <$> elements ({[start]} ∪ links))
              = Some <$> elements ({[start]} ∪ links)).
    { rewrite <- list_fmap_compose. apply list_fmap_ext.
      intros i u _. apply crawl_page_url. }
    rewrite Hurls. split_and!.
    + apply (NoDup_fmap_2 _). apply NoDup_elements.
    + right. apply list_elem_of_fmap. exists start. split; [reflexivity|].
      apply elem_of_elements, elem_of_union_l, elem_of_singleton. reflexivity.
    + intros page (u & -> & Hu)%list_elem_of_fmap. exists u.
      split; [apply crawl_page_url|].
      apply elem_of_elements, elem_of_union in Hu as [->%elem_of_singleton|Hu];
        [by left|right].
      by apply (extract_navigation_links_clean html (base_domain_of p) links).
Qed.

(** X11. Every URL in the set the navigation extractor returns is
    non-empty and contains no [#]. *)
Theorem extracted_links_fragment_free html base links u :
  _extract_navigation_links html base = Ok links →
  u ∈ links →
  u ≠ "" ∧ Py.contains "#" u = false.
Proof. intros Hrun. exact (extract_navigation_links_clean html base links Hrun u). Qed.

(** X12. [crawl_navigation] raises exactly when parsing the start URL
    raises, or when the homepage answered 200 with a body and the
    navigation extractor raises on it, and then with the same exception; a
    failure of a page fetch never makes it raise. *)
Theorem crawl_navigation_raises_iff (N : Httpx) start e :
  crawl_navigation start = Raise e
  ↔ urlparse start = Raise e
    ∨ ∃ p html,
        urlparse start = Ok p ∧
        _fetch_page start = Some html ∧
        html ≠ "" ∧
        _extract_navigation_links html (base_domain_of p) = Raise e.
Proof.
  unfold crawl_navigation.
  destruct (urlparse start) as [p|e'] eqn:Hp; simpl; cycle 1.
  { split; [intros [= ->]; by left|]. intros [[= ->]|(p & html & [=] & _)]. reflexivity. }
  fold (base_domain_of p).
  destruct (_fetch_page start) as [html|]; cycle 1.
  { split; [discriminate|]. intros [[=]|(p' & html & _ & [=] & _)]. }
  destruct (Py.truthy html) eqn:Ht; simpl; cycle 1.
  { split; [discriminate|]. intros [[=]|(p' & html' & _ & [= <-] & Hne & _)].
    apply truthy_false in Ht. contradiction. }
  destruct (_extract_navigation_links html (base_domain_of p)) as [links|e''] eqn:He; simpl.
  - split; [discriminate|]. intros [[=]|(p' & html' & [= <-] & [= <-] & _ & Hr)].
    congruence.
  - split.
    + intros [= ->]. right. exists p, html. apply truthy_true in Ht. auto.
    + intros [[=]|(p' & html' & [= <-] & [= <-] & _ & Hr)]. congruence.
Qed.

Lemma nav_elements_cases soup :
  let navs := Bs4.find_all soup (Bs4.named "nav") in
  let headers := Bs4.find_all soup (Bs4.named "header") in
  let marked :=
    Bs4.find_all soup
      (λ t, Bs4.named_in ["div"; "ul"] t && Bs4.multi_attr_fn "class" nav_class t) in
  (navs ≠ [] ∧ nav_elements_of soup = navs)
  ∨ (navs = [] ∧ headers ≠ [] ∧ nav_elements_of soup = headers)
  ∨ (navs = [] ∧ headers = [] ∧ marked ≠ [] ∧ nav_elements_of soup = marked)
  ∨ (navs = [] ∧ headers = [] ∧ marked = [] ∧
     nav_elements_of soup = option_list (Bs4.find soup (Bs4.named "ul"))).
Proof.
  intros navs headers marked. unfold nav_elements_of. fold navs headers marked.
  clearbody navs headers marked.
  destruct navs as [|x navs']; [|left; split; [discriminate|reflexivity]].
  right. destruct headers as [|y headers'];
    [|left; split_and!; [done|discriminate|reflexivity]].
  right. destruct marked as [|z marked'];
    [|left; split_and!; [done|done|discriminate|reflexivity]].
  right. split_and!; try done.
Qed.


Lemma nav_elements_descendants soup e :
  e ∈ nav_elements_of soup → e ∈ Bs4.descendants soup.
Proof.
  destruct (nav_elements_cases soup)
    as [(_ & ->)|[(_ & _ & ->)|[(_ & _ & _ & ->)|(_ & _ & _ & ->)]]];
    try apply find_all_descendant.
  destruct (Bs4.find soup (Bs4.named "ul")) eqn:Hf; [|inversion 1].
  intros ->%list_elem_of_singleton. by apply find_descendant in Hf.
Qed.

Lemma anchors_spec n link :
  link ∈ anchors n
  ↔ link ∈ Bs4.descendants n ∧
    Bs4.is_tag link && (Bs4.named "a" link && Bs4.has_attr "href" link) = true.
Proof.
  unfold anchors, Bs4.find_all. rewrite !list_elem_of_In. apply filter_In.
Qed.

(** X14. Every hyperlink the navigation extractor visits is an [a]
    element of the homepage document with an [href] attribute, whatever
    strategy selected the element it is in. *)
Theorem candidate_links_in_document soup link :
  link ∈ candidate_links soup →
  link ∈ anchors soup ∧
  Bs4.named "a" link = true ∧
  ∃ href, Bs4.get link "href" = Some href ∧ href_of link = href.
Proof.
  unfold candidate_links.
  intros (e & [Hl Hp]%anchors_spec & He%nav_elements_descendants)%list_elem_of_bind.
  split; [|split].
  - apply anchors_spec. split; [|assumption]. by apply (descendants_trans soup e).
  - apply andb_true_iff in Hp as [_ [Hn _]%andb_true_iff]. assumption.
  - apply andb_true_iff in Hp as [_ [_ Hh]%andb_true_iff].
    unfold Bs4.has_attr in Hh. unfold href_of.
    destruct (Bs4.get link "href") as [href|]; [|discriminate]. eauto.
Qed.

(** X15. The internal-link total of a page record is at least 0 and at
    most the number of [a] elements with [href] in the page's body, and 0
    when the request failed. *)
Theorem internal_links_bounds (client : Client) url base :
  ∃ n,
    PageData.internal_links (_crawl_page client url base) = Some n ∧
    0 ≤ n ∧
    (∀ response, client url = Ok response →
       n ≤ Z.of_nat (length (anchors (BeautifulSoup (Response.text response))))) ∧
    (∀ e, client url = Raise e → n = 0).
Proof.
  destruct (_crawl_page_try client url base) as [page|e] eqn:Hrun.
  - destruct (crawl_page_try_internal_links client url base page Hrun)
      as (response & Hget & Hn).
    unfold _crawl_page. rewrite Hrun. eexists. split; [exact Hn|].
    split_and!; [lia| |congruence].
    intros response' Hget'. rewrite Hget in Hget'. injection Hget' as <-.
    apply inj_le, length_filter.
  - rewrite (crawl_page_raise _ _ _ _ Hrun). exists 0. simpl.
    split_and!; [reflexivity|lia| |reflexivity].
    intros response _. lia.
Qed.

(** X16. Crawling then analysing one URL: the analysis carries the URL;
    a transport failure gives a record with the exception's message and an
    analysis with status code 0 and [PAGE_NOT_ACCESSIBLE]; a response gives
    either a record with its text and headers and an analysis with its own
    status code ([PAGE_NOT_ACCESSIBLE] when that is not 200), or, when
    counting the links raised, the same as a transport failure. *)
Theorem crawl_then_analyze (client : Client) url base :
  let page := _crawl_page client url base in
  let analysis := SEOAnalyzer.analyze_page page in
  PageAnalysis.url analysis = url ∧
  (∀ e, client url = Raise e →
     PageData.error page = Some e ∧
     PageAnalysis.status_code analysis = 0 ∧
     PageAnalysis.issues analysis = ["PAGE_NOT_ACCESSIBLE"]) ∧
  (∀ response, client url = Ok response →
     (PageData.error page = None ∧
      PageData.html page = Some (Response.text response) ∧
      PageData.headers page = Some (Response.headers response) ∧
      PageAnalysis.status_code analysis = Response.status_code response ∧
      (Response.status_code response ≠ 200 →
       PageAnalysis.issues analysis = ["PAGE_NOT_ACCESSIBLE"]))
     ∨ (∃ e, PageData.error page = Some e ∧
             _crawl_page_try client url base = Raise e ∧
             PageAnalysis.status_code analysis = 0 ∧
             PageAnalysis.issues analysis = ["PAGE_NOT_ACCESSIBLE"])).
Proof.
  intros page analysis. subst page analysis. split_and!.
  - pose proof (crawl_page_url client url base) as Hu.
    unfold SEOAnalyzer.analyze_page. rewrite Hu.
    by destruct (negb _ || negb _).
  - intros e Hget.
    assert (Hrun : _crawl_page_try client url base = Raise e)
      by (unfold _crawl_page_try; rewrite Hget; reflexivity).
    rewrite (crawl_page_raise _ _ _ _ Hrun). auto.
  - intros response Hget.
    destruct (_crawl_page_try client url base) as [page|e] eqn:Hrun.
    + left. unfold _crawl_page. rewrite Hrun.
      unfold _crawl_page_try in Hrun. rewrite Hget in Hrun. simpl in Hrun.
      match type of Hrun with
      | context [for_each ?xs ?body ?acc] => destruct (for_each xs body acc)
      end; simpl in Hrun; [|discriminate].
      injection Hrun as <-. split_and!; try reflexivity.
      * unfold SEOAnalyzer.analyze_page. simpl. by destruct (negb _ || negb _).
      * intros Hs. by apply analyze_page_not_200.
    + right. exists e. rewrite (crawl_page_raise _ _ _ _ Hrun). auto.
Qed.

End CrawlerMore.

(** * More on the audit store *)

Section StoreMore.
Import AuditDatabase.

(** X17. For an audit id in the store, [update_status], [save_results]
    and [save_error] each replace one field of the record (the status, the
    results, the error), set [updated_at] to the time of the call and keep
    every other field; [get_audit] then returns that record. *)
Theorem store_update_known (audits : gmap string AuditRecord.t)
    (now audit_id status error : string) (results : AuditResults.t) (r : AuditRecord.t) :
  audits !! audit_id = Some r →
  get_audit audit_id (update_status now audit_id status audits)
  = Some {| AuditRecord.audit_id := AuditRecord.audit_id r;
            AuditRecord.url := AuditRecord.url r;
            AuditRecord.status := status;
            AuditRecord.created_at := AuditRecord.created_at r;
            AuditRecord.results := AuditRecord.results r;
            AuditRecord.error := AuditRecord.error r;
            AuditRecord.updated_at := Some now |} ∧
  get_audit audit_id (save_results now audit_id results audits)
  = Some {| AuditRecord.audit_id := AuditRecord.audit_id r;
            AuditRecord.url := AuditRecord.url r;
            AuditRecord.status := AuditRecord.status r;
            AuditRecord.created_at := AuditRecord.created_at r;
            AuditRecord.results := Some results;
            AuditRecord.error := AuditRecord.error r;
            AuditRecord.updated_at := Some now |} ∧
  get_audit audit_id (save_error now audit_id error audits)
  = Some {| AuditRecord.audit_id := AuditRecord.audit_id r;
            AuditRecord.url := AuditRecord.url r;
            AuditRecord.status := AuditRecord.status r;
            AuditRecord.created_at := AuditRecord.created_at r;
            AuditRecord.results := AuditRecord.results r;
            AuditRecord.error := Some error;
            AuditRecord.updated_at := Some now |}.
Proof.
  intros Hr. unfold get_audit, update_status, save_results, save_error.
  rewrite Hr, !lookup_insert_eq. auto.
Qed.

Lemma update_status_other (audits : gmap string AuditRecord.t) now audit_id status other :
  other ≠ audit_id → update_status now audit_id status audits !! other = audits !! other.
Proof.
  intros Hne. unfold update_status.
  destruct (audits !! audit_id); [by rewrite lookup_insert_ne|reflexivity].
Qed.

Lemma save_results_other (audits : gmap string AuditRecord.t) now audit_id results other :
  other ≠ audit_id → save_results now audit_id results audits !! other = audits !! other.
Proof.
  intros Hne. unfold save_results.
  destruct (audits !! audit_id); [by rewrite lookup_insert_ne|reflexivity].
Qed.

Lemma save_error_other (audits : gmap string AuditRecord.t) now audit_id error other :
  other ≠ audit_id → save_error now audit_id error audits !! other = audits !! other.
Proof.
  intros Hne. unfold save_error.
  destruct (audits !! audit_id); [by rewrite lookup_insert_ne|reflexivity].
Qed.

Lemma dom_insert_known (audits : gmap string AuditRecord.t) audit_id r r' :
  audits !! audit_id = Some r → dom (<[audit_id := r']> audits) = dom audits.
Proof.
  intros Hr. rewrite dom_insert_L.
  assert (audit_id ∈ dom audits) by (apply elem_of_dom; eauto). set_solver.
Qed.

Lemma update_status_dom (audits : gmap string AuditRecord.t) now audit_id status :
  dom (update_status now audit_id status audits) = dom audits.
Proof.
  unfold update_status. destruct (audits !! audit_id) eqn:Hr; [|reflexivity].
  by eapply dom_insert_known.
Qed.

Lemma save_results_dom (audits : gmap string AuditRecord.t) now audit_id results :
  dom (save_results now audit_id results audits) = dom audits.
Proof.
  unfold save_results. destruct (audits !! audit_id) eqn:Hr; [|reflexivity].
  by eapply dom_insert_known.
Qed.

Lemma save_error_dom (audits : gmap string AuditRecord.t) now audit_id error :
  dom (save_error now audit_id error audits) = dom audits.
Proof.
  unfold save_error. destruct (audits !! audit_id) eqn:Hr; [|reflexivity].
  by eapply dom_insert_known.
Qed.

(** X18. [update_status], [save_results] and [save_error] leave the
    records of all other ids as they are and never add or remove an id. *)
Theorem store_updates_frame (audits : gmap string AuditRecord.t)
    (now audit_id status error : string) (results : AuditResults.t) :
  (∀ other, other ≠ audit_id →
     get_audit other (update_status now audit_id status audits) = get_audit other audits ∧
     get_audit other (save_results now audit_id results audits) = get_audit other audits ∧
     get_audit other (save_error now audit_id error audits) = get_audit other audits) ∧
  dom (update_status now audit_id status audits) = dom audits ∧
  dom (save_results now audit_id results audits) = dom audits ∧
  dom (save_error now audit_id error audits) = dom audits.
Proof.
  split_and!.
  - intros other Hne. unfold get_audit.
    rewrite update_status_other, save_results_other, save_error_other by assumption. auto.
  - apply update_status_dom.
  - apply save_results_dom.
  - apply save_error_dom.
Qed.

(** X19. After [create_audit], [get_audit] on the id returns a pending
    record with the URL and creation time and neither results nor error,
    replacing any record the id had; other ids keep their records and the
    id is added to the store's ids. *)
Theorem create_audit_get (audits : gmap string AuditRecord.t) (now audit_id url : string) :
  get_audit audit_id (create_audit now audit_id url audits)
  = Some {| AuditRecord.audit_id := audit_id;
            AuditRecord.url := url;
            AuditRecord.status := "pending";
            AuditRecord.created_at := now;
            AuditRecord.results := None;
            AuditRecord.error := None;
            AuditRecord.updated_at := None |} ∧
  (∀ other, other ≠ audit_id →
     get_audit other (create_audit now audit_id url audits) = get_audit other audits) ∧
  dom (create_audit now audit_id url audits) = {[audit_id]} ∪ dom audits.
Proof.
  unfold get_audit, create_audit. split_and!.
  - apply lookup_insert_eq.
  - intros other Hne. by apply lookup_insert_ne.
  - apply dom_insert_L.
Qed.

(** X20. The store does not check status transitions: a status update
    after another one on the same id gives the same store as the later
    update alone. *)
Theorem update_status_overwrites (audits : gmap string AuditRecord.t)
    (now1 now2 audit_id status1 status2 : string) :
  update_status now2 audit_id status2 (update_status now1 audit_id status1 audits)
  = update_status now2 audit_id status2 audits.
Proof.
  unfold update_status. destruct (audits !! audit_id) as [r|] eqn:Hr.
  - rewrite lookup_insert_eq. simpl. apply insert_insert_eq.
  - rewrite Hr. reflexivity.
Qed.

End StoreMore.

(** * The coordinator *)

(** Appending each element's image in a loop builds the mapped list. *)
Lemma fold_left_append_fmap {A B} (f : A → B) (l : list A) (acc : list B) :
  fold_left (λ results x, results ++ [f x]) l acc = acc ++ (f <$> l).
Proof.
  revert acc. induction l as [|x l IH]; intros acc; simpl.
  - by rewrite app_nil_r.
  - rewrite IH, <- app_assoc. reflexivity.
Qed.

Section Coordinator.
Context {P : HtmlParser} {U : UrlLib} {N : Httpx} {C : Clock}.
Import Main.

Lemma known_true audit_id st r : db st !! audit_id = Some r → known audit_id st = true.
Proof. intros Hr. unfold known. apply bool_decide_eq_true. eauto. Qed.

Lemma db_update_status_known audit_id status st r :
  db st !! audit_id = Some r →
  db (db_update_status audit_id status st) !! audit_id
  = Some {| AuditRecord.audit_id := AuditRecord.audit_id r;
            AuditRecord.url := AuditRecord.url r;
            AuditRecord.status := status;
            AuditRecord.created_at := AuditRecord.created_at r;
            AuditRecord.results := AuditRecord.results r;
            AuditRecord.error := AuditRecord.error r;
            AuditRecord.updated_at := Some (utcnow (reads st)) |} ∧
  reads (db_update_status audit_id status st) = S (reads st).
Proof.
  intros Hr. unfold db_update_status. simpl. rewrite (known_true _ _ _ Hr).
  split; [|reflexivity]. unfold AuditDatabase.update_status.
  rewrite Hr. apply lookup_insert_eq.
Qed.

Lemma db_save_results_known audit_id results st r :
  db st !! audit_id = Some r →
  db (db_save_results audit_id results st) !! audit_id
  = Some {| AuditRecord.audit_id := AuditRecord.audit_id r;
            AuditRecord.url := AuditRecord.url r;
            AuditRecord.status := AuditRecord.status r;
            AuditRecord.created_at := AuditRecord.created_at r;
            AuditRecord.results := Some results;
            AuditRecord.error := AuditRecord.error r;
            AuditRecord.updated_at := Some (utcnow (reads st)) |} ∧
  reads (db_save_results audit_id results st) = S (reads st).
Proof.
  intros Hr. unfold db_save_results. simpl. rewrite (known_true _ _ _ Hr).
  split; [|reflexivity]. unfold AuditDatabase.save_results.
  rewrite Hr. apply lookup_insert_eq.
Qed.

Lemma db_save_error_known audit_id error st r :
  db st !! audit_id = Some r →
  db (db_save_error audit_id error st) !! audit_id
  = Some {| AuditRecord.audit_id := AuditRecord.audit_id r;
            AuditRecord.url := AuditRecord.url r;
            AuditRecord.status := AuditRecord.status r;
            AuditRecord.created_at := AuditRecord.created_at r;
            AuditRecord.results := AuditRecord.results r;
            AuditRecord.error := Some error;
            AuditRecord.updated_at := Some (utcnow (reads st)) |} ∧
  reads (db_save_error audit_id error st) = S (reads st).
Proof.
  intros Hr. unfold db_save_error. simpl. rewrite (known_true _ _ _ Hr).
  split; [|reflexivity]. unfold AuditDatabase.save_error.
  rewrite Hr. apply lookup_insert_eq.
Qed.

Lemma run_audit_completed audit_id url st r pages :
  db st !! audit_id = Some r →
  NavigationCrawler.crawl_navigation url = Ok pages →
  db (run_audit audit_id url st) !! audit_id
  = Some {| AuditRecord.audit_id := AuditRecord.audit_id r;
            AuditRecord.url := AuditRecord.url r;
            AuditRecord.status := "completed";
            AuditRecord.created_at := AuditRecord.created_at r;
            AuditRecord.results :=
              Some {| AuditResults.url := url;
                      AuditResults.pages_crawled := Z.of_nat (length pages);
                      AuditResults.summary :=
                        calculate_summary (SEOAnalyzer.analyze_page <$> pages);
                      AuditResults.pages := SEOAnalyzer.analyze_page <$> pages;
                      AuditResults.completed_at := utcnow (reads st + 2) |};
            AuditRecord.error := AuditRecord.error r;
            AuditRecord.updated_at := Some (utcnow (reads st + 4)) |} ∧
  reads (run_audit audit_id url st) = (reads st + 5)%nat.
Proof.
  intros Hr Hcrawl. unfold run_audit. rewrite Hcrawl. cbv beta iota zeta.
  rewrite (fold_left_append_fmap SEOAnalyzer.analyze_page pages []), app_nil_l,
    length_fmap.
  destruct (db_update_status_known audit_id "crawling" st r Hr) as (H1 & R1).
  destruct (db_update_status_known audit_id "analyzing" _ _ H1) as (H2 & R2).
  match goal with
  | |- context [db_save_results audit_id ?res ?st3] =>
      destruct (db_save_results_known audit_id res st3 _ H2) as (H3 & R3)
  end.
  destruct (db_update_status_known audit_id "completed" _ _ H3) as (H4 & R4).
  rewrite H4, R4, R3. cbn [reads AuditRecord.audit_id AuditRecord.url
    AuditRecord.created_at AuditRecord.results AuditRecord.error AuditRecord.status].
  rewrite R2, R1.
  replace (S (S (reads st))) with (reads st + 2)%nat by lia.
  replace (S (S (reads st + 2))) with (reads st + 4)%nat by lia.
  split; [reflexivity|lia].
Qed.

Lemma run_audit_failed audit_id url st r e :
  db st !! audit_id = Some r →
  NavigationCrawler.crawl_navigation url = Raise e →
  db (run_audit audit_id url st) !! audit_id
  = Some {| AuditRecord.audit_id := AuditRecord.audit_id r;
            AuditRecord.url := AuditRecord.url r;
            AuditRecord.status := "failed";
            AuditRecord.created_at := AuditRecord.created_at r;
            AuditRecord.results := AuditRecord.results r;
            AuditRecord.error := Some e;
            AuditRecord.updated_at := Some (utcnow (reads st + 2)) |} ∧
  reads (run_audit audit_id url st) = (reads st + 3)%nat.
Proof.
  intros Hr Hcrawl. unfold run_audit. rewrite Hcrawl. cbv beta iota zeta.
  destruct (db_update_status_known audit_id "crawling" st r Hr) as (H1 & R1).
  destruct (db_update_status_known audit_id "failed" _ _ H1) as (H2 & R2).
  destruct (db_save_error_known audit_id e _ _ H2) as (H3 & R3).
  rewrite H3, R3, R2, R1. cbn [AuditRecord.audit_id AuditRecord.url
    AuditRecord.created_at AuditRecord.results AuditRecord.error AuditRecord.status].
  replace (S (S (reads st))) with (reads st + 2)%nat by lia.
  split; [reflexivity|lia].
Qed.

(** X21. When the audit's record is in the store and the crawl returns,
    [run_audit] leaves the record with status [completed], the results
    (the URL, the number of pages, the summary and the analyses of the
    crawled pages in crawl order, and a completion time read before the
    last update) and its error untouched. *)
Theorem run_audit_success audit_id url st r pages :
  db st !! audit_id = Some r →
  NavigationCrawler.crawl_navigation url = Ok pages →
  db (run_audit audit_id url st) !! audit_id
  = Some {| AuditRecord.audit_id := AuditRecord.audit_id r;
            AuditRecord.url := AuditRecord.url r;
            AuditRecord.status := "completed";
            AuditRecord.created_at := AuditRecord.created_at r;
            AuditRecord.results :=
              Some {| AuditResults.url := url;
                      AuditResults.pages_crawled := Z.of_nat (length pages);
                      AuditResults.summary :=
                        calculate_summary (SEOAnalyzer.analyze_page <$> pages);
                      AuditResults.pages := SEOAnalyzer.analyze_page <$> pages;
                      AuditResults.completed_at := utcnow (reads st + 2) |};
            AuditRecord.error := AuditRecord.error r;
            AuditRecord.updated_at := Some (utcnow (reads st + 4)) |}.
Proof. intros Hr Hcrawl. apply (run_audit_completed audit_id url st r pages Hr Hcrawl). Qed.

(** X22. When the audit's record is in the store and the crawl raises,
    [run_audit] leaves the record with status [failed] and the exception's
    message as error; its results are untouched, so nothing partial is
    saved. *)
Theorem run_audit_failure audit_id url st r e :
  db st !! audit_id = Some r →
  NavigationCrawler.crawl_navigation url = Raise e →
  db (run_audit audit_id url st) !! audit_id
  = Some {| AuditRecord.audit_id := AuditRecord.audit_id r;
            AuditRecord.url := AuditRecord.url r;
            AuditRecord.status := "failed";
            AuditRecord.created_at := AuditRecord.created_at r;
            AuditRecord.results := AuditRecord.results r;
            AuditRecord.error := Some e;
            AuditRecord.updated_at := Some (utcnow (reads st + 2)) |}.
Proof. intros Hr Hcrawl. apply (run_audit_failed audit_id url st r e Hr Hcrawl). Qed.

Lemma run_audit_other audit_id url st other :
  other ≠ audit_id → db (run_audit audit_id url st) !! other = db st !! other.
Proof.
  intros Hne. unfold run_audit.
  destruct (NavigationCrawler.crawl_navigation url) as [pages|e]; cbv beta iota zeta.
  - unfold db_update_status, db_save_results. cbn [db].
    by rewrite update_status_other, save_results_other, !update_status_other.
  - unfold db_update_status, db_save_error. cbn [db].
    by rewrite save_error_other, !update_status_other.
Qed.

Lemma run_audit_dom audit_id url st : dom (db (run_audit audit_id url st)) = dom (db st).
Proof.
  unfold run_audit.
  destruct (NavigationCrawler.crawl_navigation url) as [pages|e]; cbv beta iota zeta.
  - unfold db_update_status, db_save_results. cbn [db].
    by rewrite update_status_dom, save_results_dom, !update_status_dom.
  - unfold db_update_status, db_save_error. cbn [db].
    by rewrite save_error_dom, !update_status_dom.
Qed.

(** X23. [run_audit] changes no record but its own and never adds or
    removes an id; for an id that is not in the store it leaves the store
    unchanged, and [get_audit_results] still answers 404. *)
Theorem run_audit_frame audit_id url st :
  (∀ other, other ≠ audit_id → db (run_audit audit_id url st) !! other = db st !! other) ∧
  dom (db (run_audit audit_id url st)) = dom (db st) ∧
  (db st !! audit_id = None →
     db (run_audit audit_id url st) = db st ∧
     get_audit_results audit_id (run_audit audit_id url st)
     = HTTPException 404 "Audit not found").
Proof.
  split_and!.
  - intros other. apply run_audit_other.
  - apply run_audit_dom.
  - intros Hnone.
    assert (Hsame : db (run_audit audit_id url st) = db st).
    { apply map_eq. intros k. destruct (decide (k = audit_id)) as [->|Hne];
        [|by apply run_audit_other].
      rewrite Hnone. apply not_elem_of_dom. rewrite run_audit_dom.
      by apply not_elem_of_dom. }
    split; [assumption|]. unfold get_audit_results, AuditDatabase.get_audit.
    by rewrite Hsame, Hnone.
Qed.

(** X24. [start_audit] returns the new id and leaves a pending record
    that [get_audit_results] returns; once the task it created has run,
    the record is [completed] with results and no error, or [failed] with
    an error and no results. *)
Theorem started_audit_reaches_terminal_status uuid url st :
  let started := start_audit uuid url st in
  let final := run_audit (AuditResponse.audit_id started.1) url started.2 in
  AuditResponse.audit_id started.1 = uuid ∧
  (∃ pending,
     get_audit_results uuid started.2 = Returned pending ∧
     AuditRecord.status pending = "pending" ∧
     AuditRecord.results pending = None ∧
     AuditRecord.error pending = None) ∧
  (∃ r,
     get_audit_results uuid final = Returned r ∧
     AuditRecord.audit_id r = uuid ∧
     AuditRecord.url r = url ∧
     ((AuditRecord.status r = "completed" ∧
       is_Some (AuditRecord.results r) ∧ AuditRecord.error r = None)
      ∨ (AuditRecord.status r = "failed" ∧
         AuditRecord.results r = None ∧ is_Some (AuditRecord.error r)))).
Proof.
  intros started final. subst started final. cbn [start_audit fst snd AuditResponse.audit_id].
  set (st1 := db_create_audit uuid url st).
  assert (H1 : db st1 !! uuid
               = Some {| AuditRecord.audit_id := uuid;
                         AuditRecord.url := url;
                         AuditRecord.status := "pending";
                         AuditRecord.created_at := utcnow (reads st);
                         AuditRecord.results := None;
                         AuditRecord.error := None;
                         AuditRecord.updated_at := None |})
    by apply lookup_insert_eq.
  split_and!; [reflexivity| |].
  - eexists. unfold get_audit_results, AuditDatabase.get_audit. rewrite H1. auto.
  - unfold get_audit_results, AuditDatabase.get_audit.
    destruct (NavigationCrawler.crawl_navigation url) as [pages|e] eqn:Hcrawl.
    + destruct (run_audit_completed uuid url st1 _ pages H1 Hcrawl) as (-> & _).
      eexists. split; [reflexivity|]. simpl. split_and!; try reflexivity. left. eauto.
    + destruct (run_audit_failed uuid url st1 _ e H1 Hcrawl) as (-> & _).
      eexists. split; [reflexivity|]. simpl. split_and!; try reflexivity. right. eauto.
Qed.

Lemma crawl_navigation_no_homepage url p :
  urlparse url = Ok p →
  (∀ response, fetch_client url = Ok response →
     Response.status_code response = 200 → Response.text response = "") →
  NavigationCrawler.crawl_navigation url = Ok [].
Proof.
  intros Hp Hno. unfold NavigationCrawler.crawl_navigation. rewrite Hp. simpl.
  destruct (NavigationCrawler._fetch_page url) as [html|] eqn:Hf; [|reflexivity].
  apply fetch_page_spec in Hf as (response & Hget & Hs & <-).
  rewrite (Hno response Hget Hs). reflexivity.
Qed.

(** X25. When the homepage cannot be fetched (transport failure, a
    status code other than 200, or an empty body) the audit does not fail:
    [run_audit] completes it with zero pages crawled, no analyses and an
    all-zero summary. *)
Theorem homepage_down_completes_empty audit_id url st r p :
  db st !! audit_id = Some r →
  urlparse url = Ok p →
  (∀ response, fetch_client url = Ok response →
     Response.status_code response = 200 → Response.text response = "") →
  ∃ r' results,
    db (run_audit audit_id url st) !! audit_id = Some r' ∧
    AuditRecord.status r' = "completed" ∧
    AuditRecord.error r' = AuditRecord.error r ∧
    AuditRecord.results r' = Some results ∧
    AuditResults.pages_crawled results = 0 ∧
    AuditResults.pages results = [] ∧
    AuditResults.summary results
    = {| Summary.missing_title := 0;
         Summary.missing_meta_description := 0;
         Summary.multiple_h1 := 0;
         Summary.noindex_pages := 0;
         Summary.non_200_pages := 0 |}.
Proof.
  intros Hr Hp Hno.
  pose proof (crawl_navigation_no_homepage url p Hp Hno) as Hcrawl.
  destruct (run_audit_completed audit_id url st r [] Hr Hcrawl) as (-> & _).
  eexists _, _. split; [reflexivity|]. simpl. split_and!; reflexivity.
Qed.

End Coordinator.
(** * The further statements on concrete inputs *)

Section MoreInstances.
Import Examples MoreExamples SEOAnalyzer NavigationCrawler AuditDatabase Main.

Lemma analyze_page_consistent_witness :
  PageAnalysis.title_length (analyze_page (P:=Examples.parser) page_home) = Py.len "Home" ∧
  PageAnalysis.h1_count (analyze_page (P:=Examples.parser) page_home) = 2.
Proof.
  destruct (analyze_page_consistent (P:=Examples.parser) page_home)
    as (_ & _ & _ & _ & _ & _ & _ & _ & Hex).
  destruct (Hex {| PageAnalysis.title := "Home";
                   PageAnalysis.meta_description := "";
                   PageAnalysis.h1_tags := ["Welcome"; "News"];
                   PageAnalysis.canonical_url := None |})
    as (Ht & _ & Hh & _).
  - vm_compute. reflexivity.
  - split; [exact Ht|exact Hh].
Defined.

Lemma blank_title_is_missing_witness :
  PageAnalysis.title_length (analyze_page (P:=MoreExamples.parser) page_blank_title) = 0 ∧
  "MISSING_TITLE"
    ∈ PageAnalysis.issues (analyze_page (P:=MoreExamples.parser) page_blank_title).
Proof.
  destruct (blank_title_is_missing (P:=MoreExamples.parser) page_blank_title)
    as (Ht & Hm & _).
  - reflexivity.
  - discriminate.
  - vm_compute. repeat constructor.
  - split; [exact Ht|exact Hm].
Defined.

Lemma calculate_summary_permutation_witness :
  calculate_summary
    [analyze_page (P:=Examples.parser) page_home; analyze_page (P:=Examples.parser) page_404]
  = calculate_summary
      [analyze_page (P:=Examples.parser) page_404; analyze_page (P:=Examples.parser) page_home].
Proof.
  apply calculate_summary_permutation. apply Permutation_swap.
Defined.

Lemma crawl_navigation_output_urls_witness :
  ∃ pages,
    crawl_navigation (P:=Examples.parser) (U:=urllib) (N:=net_one_timeout) start_url
    = Ok pages ∧
    NoDup (PageData.url <$> pages) ∧
    Some start_url ∈ PageData.url <$> pages.
Proof.
  destruct (crawl_navigation (P:=Examples.parser) (U:=urllib) (N:=net_one_timeout)
              start_url) as [pages|e] eqn:Hrun; [|vm_compute in Hrun; discriminate].
  destruct (crawl_navigation_output_urls (P:=Examples.parser) (U:=urllib)
              net_one_timeout start_url pages Hrun) as (Hnd & [->|Hstart] & _).
  - vm_compute in Hrun. discriminate.
  - exists pages. auto.
Defined.

Lemma extracted_links_fragment_free_witness :
  "https://example.com/about" ≠ "" ∧ Py.contains "#" "https://example.com/about" = false.
Proof.
  apply (extracted_links_fragment_free (P:=Examples.parser) (U:=urllib)
           nav_html "https://example.com"
           ({["https://example.com/contact"]} ∪ ({["https://example.com/about"]} ∪ ∅))).
  - vm_compute. reflexivity.
  - apply elem_of_union_r, elem_of_union_l, elem_of_singleton. reflexivity.
Defined.

Lemma candidate_links_in_document_witness :
  el "a" [("href", "/about")] [Bs4.NavigableString "About"] ∈ anchors nav_soup.
Proof.
  apply (candidate_links_in_document nav_soup). vm_compute. left.
Defined.

Lemma internal_links_bounds_witness :
  ∃ n,
    PageData.internal_links
      (_crawl_page (P:=Examples.parser) (U:=urllib) (@crawl_client net_one_timeout)
                   "https://example.com/about" "https://example.com") = Some n ∧
    0 ≤ n ≤ 2.
Proof.
  destruct (internal_links_bounds (P:=Examples.parser) (U:=urllib)
              (@crawl_client net_one_timeout)
              "https://example.com/about" "https://example.com")
    as (n & Hn & H0 & Hle & _).
  exists n. split; [exact Hn|]. split; [exact H0|].
  apply (Hle (response 200 about_html)). reflexivity.
Defined.

Lemma crawl_then_analyze_witness :
  PageAnalysis.issues
    (analyze_page (P:=Examples.parser)
       (_crawl_page (P:=Examples.parser) (U:=urllib) (@crawl_client net_one_timeout)
          "https://example.com/contact" "https://example.com"))
  = ["PAGE_NOT_ACCESSIBLE"] ∧
  PageAnalysis.status_code
    (analyze_page (P:=Examples.parser)
       (_crawl_page (P:=Examples.parser) (U:=urllib) (@crawl_client net_home_404)
          "https://example.com/missing" "https://example.com"))
  = 404.
Proof.
  split.
  - destruct (crawl_then_analyze (P:=Examples.parser) (U:=urllib)
                (@crawl_client net_one_timeout)
                "https://example.com/contact" "https://example.com") as (_ & Hfail & _).
    apply (Hfail "ReadTimeout"). reflexivity.
  - destruct (crawl_then_analyze (P:=Examples.parser) (U:=urllib)
                (@crawl_client net_home_404)
                "https://example.com/missing" "https://example.com") as (_ & _ & Hok).
    destruct (Hok (response 404 not_found_html)) as [(_ & _ & _ & Hs & _)|(e & _ & Hr & _)].
    + reflexivity.
    + exact Hs.
    + vm_compute in Hr. discriminate.
Defined.

Lemma store_update_known_witness :
  AuditRecord.status
    <$> get_audit "a1" (update_status "T1" "a1" "crawling" (db state1)) = Some "crawling" ∧
  AuditRecord.error
    <$> get_audit "a1" (save_error "T1" "a1" "boom" (db state1)) = Some (Some "boom").
Proof.
  destruct (store_update_known (db state1) "T1" "a1" "crawling" "boom"
              {| AuditResults.url := start_url;
                 AuditResults.pages_crawled := 0;
                 AuditResults.summary := calculate_summary [];
                 AuditResults.pages := [];
                 AuditResults.completed_at := "T1" |}
              {| AuditRecord.audit_id := "a1";
                 AuditRecord.url := start_url;
                 AuditRecord.status := "pending";
                 AuditRecord.created_at := "T0";
                 AuditRecord.results := None;
                 AuditRecord.error := None;
                 AuditRecord.updated_at := None |})
    as (Hu & _ & He).
  - vm_compute. reflexivity.
  - rewrite Hu, He. split; reflexivity.
Defined.

Lemma store_updates_frame_witness :
  get_audit "a1" (update_status "T1" "b2" "crawling" (db state1)) = get_audit "a1" (db state1) ∧
  dom (update_status "T1" "b2" "crawling" (db state1)) = dom (db state1).
Proof.
  destruct (store_updates_frame (db state1) "T1" "b2" "crawling" "boom"
              {| AuditResults.url := start_url;
                 AuditResults.pages_crawled := 0;
                 AuditResults.summary := calculate_summary [];
                 AuditResults.pages := [];
                 AuditResults.completed_at := "T1" |})
    as (Hother & Hdom & _).
  split; [|exact Hdom].
  apply (Hother "a1"). discriminate.
Defined.

Lemma create_audit_get_witness :
  get_audit "a1" (create_audit "T1" "b2" start_url (db state1)) = get_audit "a1" (db state1).
Proof.
  destruct (create_audit_get (db state1) "T1" "b2" start_url) as (_ & Hother & _).
  apply (Hother "a1"). discriminate.
Defined.

Lemma run_audit_success_witness :
  AuditRecord.status
    <$> db (run_audit (P:=Examples.parser) (U:=urllib) (N:=net_one_timeout) (C:=clock)
              "a1" start_url state1) !! "a1"
  = Some "completed".
Proof.
  destruct (crawl_navigation (P:=Examples.parser) (U:=urllib) (N:=net_one_timeout)
              start_url) as [pages|e] eqn:Hrun; [|vm_compute in Hrun; discriminate].
  rewrite (run_audit_success (P:=Examples.parser) (U:=urllib) (N:=net_one_timeout)
             (C:=clock) "a1" start_url state1
             {| AuditRecord.audit_id := "a1";
                AuditRecord.url := start_url;
                AuditRecord.status := "pending";
                AuditRecord.created_at := "T0";
                AuditRecord.results := None;
                AuditRecord.error := None;
                AuditRecord.updated_at := None |} pages).
  - reflexivity.
  - vm_compute. reflexivity.
  - exact Hrun.
Defined.

Lemma run_audit_failure_witness :
  db (run_audit (P:=Examples.parser) (U:=urllib) (N:=net_one_timeout) (C:=clock)
        "a1" bad_url state1) !! "a1"
  = Some {| AuditRecord.audit_id := "a1";
            AuditRecord.url := start_url;
            AuditRecord.status := "failed";
            AuditRecord.created_at := "T0";
            AuditRecord.results := None;
            AuditRecord.error := Some "Invalid IPv6 URL";
            AuditRecord.updated_at := Some "T3" |}.
Proof.
  rewrite (run_audit_failure (P:=Examples.parser) (U:=urllib) (N:=net_one_timeout)
             (C:=clock) "a1" bad_url state1
             {| AuditRecord.audit_id := "a1";
                AuditRecord.url := start_url;
                AuditRecord.status := "pending";
                AuditRecord.created_at := "T0";
                AuditRecord.results := None;
                AuditRecord.error := None;
                AuditRecord.updated_at := None |} "Invalid IPv6 URL").
  - vm_compute. reflexivity.
  - vm_compute. reflexivity.
  - vm_compute. reflexivity.
Defined.

Lemma run_audit_frame_witness :
  db (run_audit (P:=Examples.parser) (U:=urllib) (N:=net_one_timeout) (C:=clock)
        "b2" start_url state1) = db state1 ∧
  db (run_audit (P:=Examples.parser) (U:=urllib) (N:=net_one_timeout) (C:=clock)
        "b2" start_url state1) !! "a1" = db state1 !! "a1".
Proof.
  destruct (run_audit_frame (P:=Examples.parser) (U:=urllib) (N:=net_one_timeout)
              (C:=clock) "b2" start_url state1) as (Hother & _ & Hunknown).
  split.
  - apply Hunknown. vm_compute. reflexivity.
  - apply Hother. discriminate.
Defined.

Lemma homepage_down_completes_empty_witness :
  ∃ r' results,
    db (run_audit (P:=Examples.parser) (U:=urllib) (N:=net_home_404) (C:=clock)
          "a1" start_url state1) !! "a1" = Some r' ∧
    AuditRecord.status r' = "completed" ∧
    AuditRecord.results r' = Some results ∧
    AuditResults.pages_crawled results = 0.
Proof.
  destruct (homepage_down_completes_empty (P:=Examples.parser) (U:=urllib)
              (N:=net_home_404) (C:=clock) "a1" start_url state1
              {| AuditRecord.audit_id := "a1";
                 AuditRecord.url := start_url;
                 AuditRecord.status := "pending";
                 AuditRecord.created_at := "T0";
                 AuditRecord.results := None;
                 AuditRecord.error := None;
                 AuditRecord.updated_at := None |}
              {| scheme := "https"; netloc := "example.com" |})
    as (r' & results & Hr & Hs & _ & Hres & Hn & _).
  - vm_compute. reflexivity.
  - reflexivity.
  - intros r Hget Hs. injection Hget as <-. discriminate Hs.
  - exists r', results. auto.
Defined.

End MoreInstances.
